(** * reccli-ts operator scripts: download_folder, upload_folder, clear_recycle

    A shallow embedding of the three Python scripts under [scripts/] and the
    properties of their directory-mirroring traversals.

    Python [str] values are sequences of Unicode code points; they are
    modelled as lists of code points ([N]).  The external collaborators (the
    [reccli-ts] client started through [subprocess.run(..., shell=True)] and
    the local file system touched through [os]) are an explicit world that is
    threaded through every call, together with the trace of what the script
    did to it. *)

From Stdlib Require Import Ascii String NArith ZArith Bool Lia List.
Import ListNotations.

Set Warnings "-register-all".

#[local] Arguments N.eqb : simpl never.
#[local] Arguments N.leb : simpl never.

Local Open Scope N_scope.
Local Open Scope list_scope.

(** ** Strings *)

Definition char := N.
Definition str := list char.

(** A literal of the source, character by character. *)
Fixpoint lit (s : string) : str :=
  match s with
  | EmptyString => []
  | String a s' => N_of_ascii a :: lit s'
  end.

Definition SEP : char := 47.        (* '/' *)
Definition SQUOTE : char := 39.     (* the single quote *)
Definition DQUOTE : char := 34.     (* the double quote *)
Definition BACKSLASH : char := 92.
Definition DOLLAR : char := 36.
Definition BACKTICK : char := 96.
Definition SPACE : char := 32.
Definition TAB : char := 9.
Definition LF : char := 10.
Definition CR : char := 13.

Definition char_in (cs : list char) (c : char) : bool := existsb (N.eqb c) cs.

Fixpoint str_eqb (a b : str) : bool :=
  match a, b with
  | [], [] => true
  | x :: a', y :: b' => N.eqb x y && str_eqb a' b'
  | _, _ => false
  end.

Definition is_empty (s : str) : bool :=
  match s with [] => true | _ :: _ => false end.

Module Py.

(** [str.isspace] on one character: the characters [str.strip()] removes. *)
Definition isspace (c : char) : bool :=
  char_in [9; 10; 11; 12; 13; 28; 29; 30; 31; 32; 133; 160; 5760;
           8192; 8193; 8194; 8195; 8196; 8197; 8198; 8199; 8200; 8201; 8202;
           8232; 8233; 8239; 8287; 12288] c.

(** The line boundaries of [str.splitlines]. *)
Definition islinebreak (c : char) : bool :=
  char_in [10; 11; 12; 13; 28; 29; 30; 133; 8232; 8233] c.

(** [s.lstrip(chars)], [s.rstrip(chars)], [s.strip(chars)], with the set of
    characters given as a predicate. *)
Fixpoint lstrip_by (p : char -> bool) (s : str) : str :=
  match s with
  | [] => []
  | c :: rest => if p c then lstrip_by p rest else s
  end.

Fixpoint rstrip_by (p : char -> bool) (s : str) : str :=
  match s with
  | [] => []
  | c :: rest =>
      match rstrip_by p rest with
      | [] => if p c then [] else [c]
      | r => c :: r
      end
  end.

Definition strip_by (p : char -> bool) (s : str) : str :=
  rstrip_by p (lstrip_by p s).

(** [s.strip()] *)
Definition strip (s : str) : str := strip_by isspace s.

(** [s.rstrip('/')] *)
Definition rstrip_sep (s : str) : str := rstrip_by (N.eqb SEP) s.

(** [s.endswith('/')] *)
Fixpoint endswith_sep (s : str) : bool :=
  match s with
  | [] => false
  | [c] => N.eqb c SEP
  | _ :: rest => endswith_sep rest
  end.

(** [s.startswith('/')] *)
Definition startswith_sep (s : str) : bool :=
  match s with
  | c :: _ => N.eqb c SEP
  | [] => false
  end.

(** [s.splitlines()]: the lines without their boundaries; [\r\n] is one
    boundary; a boundary at the very end opens no further line. *)
Fixpoint splitlines (s : str) : list str :=
  match s with
  | [] => []
  | c :: rest =>
      if islinebreak c then
        [] :: match rest with
              | c' :: rest' =>
                  if N.eqb c CR && N.eqb c' LF then splitlines rest'
                  else splitlines rest
              | [] => []
              end
      else
        match splitlines rest with
        | [] => [[c]]
        | l :: ls => (c :: l) :: ls
        end
  end.

(** [s.replace("'", new)] *)
Fixpoint replace_squote (new : str) (s : str) : str :=
  match s with
  | [] => []
  | c :: rest =>
      if N.eqb c SQUOTE then new ++ replace_squote new rest
      else c :: replace_squote new rest
  end.

(** [p.rfind('/') + 1] as a cut: [(p[:i], p[i:])]. *)
Fixpoint cut_last_sep (p : str) : str * str :=
  match p with
  | [] => ([], [])
  | c :: rest =>
      match cut_last_sep rest with
      | ([], t) => if N.eqb c SEP then ([c], t) else ([], c :: t)
      | (h, t) => (c :: h, t)
      end
  end.

(** [os.path.basename] (posixpath) *)
Definition basename (p : str) : str := snd (cut_last_sep p).

(** [os.path.dirname] (posixpath): the head keeps its separators only when
    it consists of nothing else. *)
Definition dirname (p : str) : str :=
  let head := fst (cut_last_sep p) in
  if negb (is_empty head) && negb (forallb (N.eqb SEP) head)
  then rstrip_sep head
  else head.

(** [os.path.join(a, b)] (posixpath) *)
Definition join (a b : str) : str :=
  if startswith_sep b then b
  else if is_empty a || endswith_sep a then a ++ b
  else a ++ SEP :: b.

(** [shlex.quote]: the characters that need no quoting are
    [[A-Za-z0-9_@%+=:,./-]]. *)
Definition is_safe (c : char) : bool :=
  (N.leb 97 c && N.leb c 122) || (N.leb 65 c && N.leb c 90) ||
  (N.leb 48 c && N.leb c 57) ||
  char_in [95; 64; 37; 43; 61; 58; 44; 46; 47; 45] c.

Definition quote (s : str) : str :=
  if is_empty s then [SQUOTE; SQUOTE]
  else if forallb is_safe s then s
  else SQUOTE :: replace_squote [SQUOTE; DQUOTE; SQUOTE; DQUOTE; SQUOTE] s
                 ++ [SQUOTE].

End Py.

(** ** The shell that [subprocess.run(..., shell=True)] hands the command to

    Token recognition and quote removal of the POSIX shell, as far as the
    scripts' command strings exercise them: blanks separate words; inside
    single quotes every character is literal; inside double quotes the
    backslash escapes only [$], the backtick, the double quote, the backslash
    and the newline, while the backtick, and [$] before what can start an
    expansion, are acted on; an unquoted backslash makes the next character
    literal.  A character the
    shell would act on (an operator, an expansion, a pattern, a comment) ends
    the reading with [Interprets]; a quote that is never closed is the shell's
    syntax error. *)

Module Sh.

Inductive result :=
| Words (ws : list str)
| Unterminated
| Interprets (c : char).

Inductive mode := Plain | InSingle | InDouble.

Definition is_blank (c : char) : bool := char_in [SPACE; TAB] c.

(** newline, the operator characters (bar, ampersand, semicolon, angle
    brackets, parentheses), the backtick, and the pattern characters (star,
    question mark, opening square bracket) *)
Definition is_meta (c : char) : bool :=
  char_in [LF; 124; 38; 59; 60; 62; 40; 41; BACKTICK; 42; 63; 91] c.

(** What makes the dollar before it an expansion: a letter, a digit or the
    underscore (a name or a positional parameter), an opening brace or
    parenthesis, or one of the special parameters.  A dollar before anything
    else stands for itself. *)
Definition starts_expansion (rest : str) : bool :=
  match rest with
  | c :: _ =>
      (N.leb 97 c && N.leb c 122) || (N.leb 65 c && N.leb c 90) ||
      (N.leb 48 c && N.leb c 57) ||
      char_in [95; 123; 40; 64; 42; 35; 63; 45; DOLLAR; 33] c
  | [] => false
  end.

(** Outside quotes a dollar before a quote is taken for the start of a
    quoting form as well (some shells read it so). *)
Definition starts_quoting (rest : str) : bool :=
  match rest with
  | c :: _ => char_in [SQUOTE; DQUOTE] c
  | [] => false
  end.

(** the hash and the tilde count only where a word starts *)
Definition is_meta_at_start (c : char) : bool := char_in [35; 126] c.

Definition word_of (cur : option str) : str :=
  match cur with Some w => w | None => [] end.

Definition push (cur : option str) (c : char) : option str :=
  Some (word_of cur ++ [c]).

Definition close_word (cur : option str) (r : result) : result :=
  match cur, r with
  | Some w, Words ws => Words (w :: ws)
  | _, _ => r
  end.

Fixpoint lex (m : mode) (cur : option str) (s : str) : result :=
  match s with
  | [] =>
      match m with
      | Plain => close_word cur (Words [])
      | _ => Unterminated
      end
  | c :: rest =>
      match m with
      | InSingle =>
          if N.eqb c SQUOTE then lex Plain cur rest
          else lex InSingle (push cur c) rest
      | InDouble =>
          if N.eqb c DQUOTE then lex Plain cur rest
          else if N.eqb c BACKTICK then Interprets c
          else if N.eqb c DOLLAR then
            if starts_expansion rest then Interprets c
            else lex InDouble (push cur c) rest
          else if N.eqb c BACKSLASH then
            match rest with
            | c' :: rest' =>
                if char_in [DOLLAR; BACKTICK; DQUOTE; BACKSLASH] c'
                then lex InDouble (push cur c') rest'
                else if N.eqb c' LF then lex InDouble cur rest'
                else lex InDouble (push cur c) rest
            | [] => Unterminated
            end
          else lex InDouble (push cur c) rest
      | Plain =>
          if is_blank c then close_word cur (lex Plain None rest)
          else if N.eqb c SQUOTE then lex InSingle (Some (word_of cur)) rest
          else if N.eqb c DQUOTE then lex InDouble (Some (word_of cur)) rest
          else if N.eqb c BACKSLASH then
            match rest with
            | c' :: rest' =>
                if N.eqb c' LF then lex Plain cur rest'
                else lex Plain (push cur c') rest'
            | [] => close_word (push cur c) (Words [])
            end
          else if N.eqb c DOLLAR then
            if starts_expansion rest || starts_quoting rest then Interprets c
            else lex Plain (push cur c) rest
          else if is_meta c then Interprets c
          else if match cur with
                  | None => is_meta_at_start c
                  | Some _ => false
                  end
          then Interprets c
          else lex Plain (push cur c) rest
      end
  end.

(** The argument words of a command line. *)
Definition words (cmd : str) : result := lex Plain None cmd.

End Sh.

(** ** The world outside the scripts and the monad of a script run *)

(** The exceptions the calls of the scripts can raise:
    [subprocess.CalledProcessError], [OSError], and the two that
    [subprocess.run] raises by itself, [UnicodeDecodeError] (captured output
    that is not UTF-8) and [ValueError] (a NUL character in the command). *)
Inductive exn :=
| CalledProcessError (cmd : str) (returncode : Z)
| OSError (path : str)
| UnicodeDecodeError
| ValueError.

(** What [subprocess.run(cmd, shell=True, ...)] meets.  [Exited]: the shell
    ran the command and ended with [returncode]; [captured] is the text of
    its standard output as a capturing call decodes it, [None] when standard
    output or standard error is not valid UTF-8.  [Refused]: no process is
    started, as for a command that holds a NUL character. *)
Inductive answer :=
| Exited (returncode : Z) (captured : option str)
| Refused.

(** [chr(0) in s] *)
Definition has_nul (s : str) : bool := existsb (N.eqb 0) s.

(** The lines the scripts print. *)
Inductive message :=
| ErrorRetrieving (path : str) (e : exn)
| Downloaded (remote_file local_file : str)
| ErrorDownloading (remote_file : str) (e : exn)
| CreatedRemoteDirectory (path : str)
| ErrorCreatingDirectory (path : str) (e : exn)
| Uploaded (local_file remote_file : str)
| ErrorUploading (local_file : str) (e : exn)
| ErrorRetrievingRecycle (e : exn)
| Removed (path : str)
| ErrorRemoving (path : str) (e : exn).

Inductive event :=
| Run (cmd : str) (returncode : Z)
| Makedirs (path : str)
| Print (m : message).

(** What a script can ask of its surroundings: a child process through the
    shell, and the local file system ([None] is the call raising
    [OSError]). *)
Record Env (W : Type) := {
  sub_run : str -> W -> answer * W;
  fs_makedirs : str -> W -> option W;
  fs_listdir : str -> W -> option (list str);
  fs_isdir : str -> W -> bool
}.
Arguments sub_run {W}.
Arguments fs_makedirs {W}.
Arguments fs_listdir {W}.
Arguments fs_isdir {W}.

Record st (W : Type) := { world : W; trace : list event }.
Arguments world {W}.
Arguments trace {W}.

Inductive outcome (W A : Type) :=
| Ok (a : A) (s : st W)
| Raised (e : exn) (s : st W)
| OutOfFuel.
Arguments Ok {W A}.
Arguments Raised {W A}.
Arguments OutOfFuel {W A}.

Definition M (W A : Type) := st W -> outcome W A.

Definition ret {W A} (a : A) : M W A := fun s => Ok a s.

Definition bind {W A B} (m : M W A) (k : A -> M W B) : M W B :=
  fun s =>
    match m s with
    | Ok a s' => k a s'
    | Raised e s' => Raised e s'
    | OutOfFuel => OutOfFuel
    end.

Notation "x <- m ;; k" := (bind m (fun x => k))
  (at level 61, m at next level, right associativity).
Notation "m ;; k" := (bind m (fun _ => k))
  (at level 61, right associativity).

Definition raise {W A} (e : exn) : M W A := fun s => Raised e s.

Definition emit {W} (e : event) : M W unit :=
  fun s => Ok tt {| world := world s; trace := trace s ++ [e] |}.

Definition print {W} (m : message) : M W unit := emit (Print m).

(** [try: body except subprocess.CalledProcessError as e: handler] *)
Definition try_except {W A} (body : M W A) (handler : exn -> M W A) : M W A :=
  fun s =>
    match body s with
    | Raised (CalledProcessError cmd rc) s' =>
        handler (CalledProcessError cmd rc) s'
    | r => r
    end.

(** [for x in xs: body] *)
Fixpoint for_each {W A} (xs : list A) (body : A -> M W unit) : M W unit :=
  match xs with
  | [] => ret tt
  | x :: xs' => body x ;; for_each xs' body
  end.

(** [subprocess.run(cmd, shell=True, check=True, text=True,
    capture_output=True, encoding="utf-8")], as the three listing calls have
    it: [ValueError] before anything is run; otherwise the captured output is
    decoded, which raises [UnicodeDecodeError] whatever the exit status; then
    [CalledProcessError] on a non-zero exit status; else the text of standard
    output. *)
Definition subprocess_run_capture {W} (env : Env W) (cmd : str) : M W str :=
  fun s =>
    match sub_run env cmd (world s) with
    | (Refused, _) => Raised ValueError s
    | (Exited rc captured, w') =>
        let s' := {| world := w'; trace := trace s ++ [Run cmd rc] |} in
        match captured with
        | None => Raised UnicodeDecodeError s'
        | Some out =>
            if Z.eqb rc 0 then Ok out s'
            else Raised (CalledProcessError cmd rc) s'
        end
    end.

(** [subprocess.run(cmd, shell=True, check=True, encoding="utf-8")], as the
    download, make-directory, upload and remove calls have it: nothing is
    captured, so nothing is decoded. *)
Definition subprocess_run {W} (env : Env W) (cmd : str) : M W unit :=
  fun s =>
    match sub_run env cmd (world s) with
    | (Refused, _) => Raised ValueError s
    | (Exited rc _, w') =>
        let s' := {| world := w'; trace := trace s ++ [Run cmd rc] |} in
        if Z.eqb rc 0 then Ok tt s'
        else Raised (CalledProcessError cmd rc) s'
    end.

(** [os.makedirs(path, exist_ok=True)] *)
Definition os_makedirs {W} (env : Env W) (path : str) : M W unit :=
  fun s =>
    match fs_makedirs env path (world s) with
    | Some w' => Ok tt {| world := w'; trace := trace s ++ [Makedirs path] |}
    | None => Raised (OSError path) s
    end.

(** [os.listdir(path)] *)
Definition os_listdir {W} (env : Env W) (path : str) : M W (list str) :=
  fun s =>
    match fs_listdir env path (world s) with
    | Some names => Ok names s
    | None => Raised (OSError path) s
    end.

(** [os.path.isdir(path)] *)
Definition os_isdir {W} (env : Env W) (path : str) : M W bool :=
  fun s => Ok (fs_isdir env path (world s)) s.

(** The command line every script builds: [reccli-ts run -c] followed by the
    client's command between double quotes. *)
Definition reccli (inner : str) : str :=
  lit "reccli-ts run -c " ++ DQUOTE :: inner ++ [DQUOTE].

(** ** scripts/download_folder.py *)

Module DownloadFolder.

Definition remote_path : str := lit "/cloud/download".
Definition local_path : str := lit "./download".

Definition escape_shell_path (path : str) : str := Py.quote path.

Definition lsp_command (remote_path : str) : str :=
  reccli (lit "lsp " ++ escape_shell_path remote_path).

Definition download_command (remote_file_path local_file_path : str) : str :=
  reccli (lit "download " ++ escape_shell_path remote_file_path
          ++ SPACE :: escape_shell_path local_file_path).

Section WithEnv.
Context {W : Type} (env : Env W).

Definition get_remote_files (remote_path : str) : M W (list str) :=
  try_except
    (out <- subprocess_run_capture env (lsp_command remote_path) ;;
     ret (Py.splitlines out))
    (fun e => print (ErrorRetrieving remote_path e) ;; ret []).

Definition download_file (remote_file_path local_file_path : str)
  : M W unit :=
  try_except
    (_ <- subprocess_run env
            (download_command remote_file_path local_file_path) ;;
     print (Downloaded remote_file_path local_file_path))
    (fun e => print (ErrorDownloading remote_file_path e)).

(** What the loop of [process_remote_path] does with an entry that is not
    blank; [recurse] is the recursive call. *)
Definition process_entry (recurse : str -> str -> M W unit)
    (remote_path local_path item_name : str) : M W unit :=
  let remote_item_path := remote_path ++ SEP :: item_name in
  if Py.endswith_sep item_name then
    let local_dir_path := Py.join local_path (Py.rstrip_sep item_name) in
    os_makedirs env local_dir_path ;;
    recurse (Py.rstrip_sep remote_item_path) local_dir_path
  else
    let local_file_path := Py.join local_path item_name in
    download_file remote_item_path local_file_path.

(** The body of the loop: [item.strip()], then [continue] on a blank
    line. *)
Definition process_item (recurse : str -> str -> M W unit)
    (remote_path local_path item : str) : M W unit :=
  let item_name := Py.strip item in
  if is_empty item_name then ret tt
  else process_entry recurse remote_path local_path item_name.

(** The recursion of the source is bounded by [fuel], the depth of calls
    still allowed. *)
Fixpoint process_remote_path (fuel : nat) (remote_path local_path : str)
  : M W unit :=
  match fuel with
  | O => fun _ => OutOfFuel
  | S fuel' =>
      items <- get_remote_files remote_path ;;
      for_each items
        (process_item (process_remote_path fuel') remote_path local_path)
  end.

(** The module body ([os.makedirs(local_path, exist_ok=True)] at import)
    followed by the [__main__] block. *)
Definition main (fuel : nat) : M W unit :=
  os_makedirs env local_path ;;
  process_remote_path fuel remote_path local_path.

End WithEnv.

End DownloadFolder.

(** ** scripts/upload_folder.py *)

Module UploadFolder.

Definition local_path : str := lit "./upload".
Definition remote_path : str := lit "/cloud/upload".

Definition escape_shell_path (path : str) : str := Py.quote path.

Definition lsp_command (parent_path : str) : str :=
  reccli (lit "lsp " ++ escape_shell_path parent_path).

Definition mkdir_command (remote_path : str) : str :=
  reccli (lit "mkdir " ++ escape_shell_path remote_path).

Definition upload_command (local_file_path parent_folder : str) : str :=
  reccli (lit "upload " ++ escape_shell_path local_file_path
          ++ SPACE :: escape_shell_path parent_folder).

Definition parent_path (remote_path : str) : str :=
  Py.dirname (Py.rstrip_sep remote_path).

Definition directory_name (remote_path : str) : str :=
  Py.basename (Py.rstrip_sep remote_path).

(** [any(item.strip() == f"{directory_name}/" for item in items)] *)
Definition listed (directory_name : str) (items : list str) : bool :=
  existsb (fun item => str_eqb (Py.strip item) (directory_name ++ [SEP]))
          items.

Section WithEnv.
Context {W : Type} (env : Env W).

Definition remote_path_exists (remote_path : str) : M W bool :=
  try_except
    (out <- subprocess_run_capture env
              (lsp_command (parent_path remote_path)) ;;
     ret (listed (directory_name remote_path) (Py.splitlines out)))
    (fun _ => ret false).

Definition ensure_remote_path (remote_path : str) : M W unit :=
  found <- remote_path_exists remote_path ;;
  if negb found then
    try_except
      (_ <- subprocess_run env (mkdir_command remote_path) ;;
       print (CreatedRemoteDirectory remote_path))
      (fun e => print (ErrorCreatingDirectory remote_path e))
  else ret tt.

Definition upload_file (local_file_path remote_file_path : str)
  : M W unit :=
  let parent_folder := Py.dirname remote_file_path in
  ensure_remote_path parent_folder ;;
  try_except
    (_ <- subprocess_run env
            (upload_command local_file_path parent_folder) ;;
     print (Uploaded local_file_path remote_file_path))
    (fun e => print (ErrorUploading local_file_path e)).

(** The body of the loop of [process_local_path]; [recurse] is the
    recursive call. *)
Definition upload_item (recurse : str -> str -> M W unit)
    (local_path remote_path item : str) : M W unit :=
  let local_item_path := Py.join local_path item in
  let remote_item_path := remote_path ++ SEP :: item in
  is_dir <- os_isdir env local_item_path ;;
  if is_dir then
    ensure_remote_path remote_item_path ;;
    recurse local_item_path remote_item_path
  else
    upload_file local_item_path remote_item_path.

(** As in the download script, [fuel] bounds the depth of the recursion. *)
Fixpoint process_local_path (fuel : nat) (local_path remote_path : str)
  : M W unit :=
  match fuel with
  | O => fun _ => OutOfFuel
  | S fuel' =>
      ensure_remote_path remote_path ;;
      items <- os_listdir env local_path ;;
      for_each items
        (upload_item (process_local_path fuel') local_path remote_path)
  end.

Definition main (fuel : nat) : M W unit :=
  process_local_path fuel local_path remote_path.

End WithEnv.

End UploadFolder.

(** ** scripts/clear_recycle.py *)

Module ClearRecycle.

Definition escape_shell_path (path : str) : str := Py.quote path.

Definition lsp_recycle_command : str := reccli (lit "lsp /recycle").

Definition rm_command (remote_file_path : str) : str :=
  reccli (lit "rm " ++ escape_shell_path remote_file_path).

Section WithEnv.
Context {W : Type} (env : Env W).

Definition get_remote_recycle_files : M W (list str) :=
  try_except
    (out <- subprocess_run_capture env lsp_recycle_command ;;
     ret (Py.splitlines out))
    (fun e => print (ErrorRetrievingRecycle e) ;; ret []).

(** What the loop of [clear_recycle] does with an entry that is not
    blank. *)
Definition remove_entry (item_name : str) : M W unit :=
  let remote_file_path := lit "/recycle/" ++ item_name in
  try_except
    (_ <- subprocess_run env (rm_command remote_file_path) ;;
     print (Removed remote_file_path))
    (fun e => print (ErrorRemoving remote_file_path e)).

Definition remove_item (item : str) : M W unit :=
  let item_name := Py.strip item in
  if is_empty item_name then ret tt
  else remove_entry item_name.

Definition clear_recycle : M W unit :=
  items <- get_remote_recycle_files ;;
  for_each items remove_item.

Definition main : M W unit := clear_recycle.

End WithEnv.

End ClearRecycle.

(** ** Vocabulary of the properties *)

(** The entries a traversal loop acts on, given the lines of a listing: each
    line trimmed, blank ones dropped. *)
Definition entries (items : list str) : list str :=
  filter (fun name => negb (is_empty name)) (map Py.strip items).

(** A line that is empty or consists of white space only. *)
Definition blank (line : str) : bool := forallb Py.isspace line.

(** A line holds no boundary character. *)
Definition no_linebreak (line : str) : bool :=
  forallb (fun c => negb (Py.islinebreak c)) line.

(** A name that neither starts nor ends with white space. *)
Definition trimmed (name : str) : Prop :=
  (forall c r, name = c :: r -> Py.isspace c = false) /\
  (forall r c, name = r ++ [c] -> Py.isspace c = false).

(** The command lines a trace issued, in order. *)
Fixpoint commands_of (t : list event) : list str :=
  match t with
  | [] => []
  | Run cmd _ :: t' => cmd :: commands_of t'
  | _ :: t' => commands_of t'
  end.

(** A trace without what was printed and without the exit statuses. *)
Inductive step :=
| Command (cmd : str)
| LocalDir (path : str).

Fixpoint steps_of (t : list event) : list step :=
  match t with
  | [] => []
  | Run cmd _ :: t' => Command cmd :: steps_of t'
  | Makedirs p :: t' => LocalDir p :: steps_of t'
  | Print _ :: t' => steps_of t'
  end.

(** Removing exactly one trailing separator, as the specification words it;
    to be compared with [Py.rstrip_sep], which the scripts call. *)
Fixpoint strip_one_sep (s : str) : str :=
  match s with
  | [] => []
  | [c] => if N.eqb c SEP then [] else [c]
  | c :: rest => c :: strip_one_sep rest
  end.

(** What [clear_recycle] leaves in the trace for the listing of the recycle
    bin and for one entry, given the exit status of the command. *)
Definition recycle_listing_report (rc : Z) : list event :=
  Run ClearRecycle.lsp_recycle_command rc ::
  (if Z.eqb rc 0 then []
   else [Print (ErrorRetrievingRecycle
                  (CalledProcessError ClearRecycle.lsp_recycle_command rc))]).



(** What [ensure_remote_path] leaves in the trace when it goes on to create
    the directory, given the exit status of the make-directory command. *)
Definition creation_report (remote_path : str) (rc : Z) : list event :=
  [Run (UploadFolder.mkdir_command remote_path) rc;
   Print (if Z.eqb rc 0 then CreatedRemoteDirectory remote_path
          else ErrorCreatingDirectory remote_path
                 (CalledProcessError
                    (UploadFolder.mkdir_command remote_path) rc))].


(** A character that stands for itself between double quotes. *)
Definition dq_literal (c : char) : bool :=
  negb (char_in [DQUOTE; DOLLAR; BACKTICK; BACKSLASH] c).

(** A path the double quotes around the client's command leave alone: none
    of its characters is a single or double quote, a dollar, a backtick or a
    backslash. *)
Definition plain_path (path : str) : bool :=
  forallb (fun c => negb (N.eqb c SQUOTE) && dq_literal c) path.

(** A remote tree, and the listing [lsp] prints for a directory of it: one
    entry name per line, directories with [/] appended. *)
Inductive rtree :=
| RFile (name : str)
| RDir (name : str) (children : list rtree).

Definition entry_name (t : rtree) : str :=
  match t with
  | RFile n => n
  | RDir n _ => n ++ [SEP]
  end.

Definition listing (children : list rtree) : str :=
  flat_map (fun t => entry_name t ++ [LF]) children.









(** ** Worlds to run the scripts in

    A client that answers from a fixed table of command lines (exit status
    and what a capturing call decodes), exits with [default] and no output on
    any other command, is not started on a command with a NUL character, and
    a local file system given by the
    table of its directories: the names in a directory, or [None] for a
    directory that cannot be read. *)

Fixpoint lookup {A} (k : str) (t : list (str * A)) : option A :=
  match t with
  | [] => None
  | (k', v) :: t' => if str_eqb k k' then Some v else lookup k t'
  end.

Definition table_env (answers : list (str * (Z * option str)))
    (default : Z) (local_dirs : list (str * option (list str))) : Env unit :=
  {| sub_run := fun cmd w =>
       (if has_nul cmd then Refused
        else match lookup cmd answers with
             | Some (rc, captured) => Exited rc captured
             | None => Exited default (Some [])
             end, w);
     fs_makedirs := fun _ w => Some w;
     fs_listdir := fun p _ =>
       match lookup p local_dirs with Some names => names | None => None end;
     fs_isdir := fun p _ =>
       match lookup p local_dirs with Some _ => true | None => false end |}.

Definition start : st unit := {| world := tt; trace := [] |}.

(** The tree [/cloud/download/{a.txt, sub/b.txt}] and a client that serves
    it. *)
Definition example_tree : list rtree :=
  [RFile (lit "a.txt"); RDir (lit "sub") [RFile (lit "b.txt")]].

Definition example_tree_env : Env unit :=
  table_env
    [(DownloadFolder.lsp_command (lit "/cloud/download"),
      (0%Z, Some (listing example_tree)));
     (DownloadFolder.lsp_command (lit "/cloud/download/sub"),
      (0%Z, Some (listing [RFile (lit "b.txt")])))]
    0%Z [].

(** [/cloud/download] holds the directory [bad], whose listing fails, and
    after it the file [b.txt]. *)
Definition failing_subdirectory_env : Env unit :=
  table_env
    [(DownloadFolder.lsp_command (lit "/cloud/download"),
      (0%Z, Some (lit "bad/" ++ [LF] ++ lit "b.txt" ++ [LF])));
     (DownloadFolder.lsp_command (lit "/cloud/download/bad"),
      (1%Z, Some []))]
    0%Z [].

(** The recycle bin holds [x.txt] and [y.txt]; removing [x.txt] fails. *)
Definition recycle_x_fails_env : Env unit :=
  table_env
    [(ClearRecycle.lsp_recycle_command,
      (0%Z, Some (lit "x.txt" ++ [LF] ++ lit "y.txt" ++ [LF])));
     (ClearRecycle.rm_command (lit "/recycle/x.txt"), (1%Z, None))]
    0%Z [].

(** The recycle bin holds the directory [sub]. *)
Definition recycle_with_directory_env : Env unit :=
  table_env
    [(ClearRecycle.lsp_recycle_command, (0%Z, Some (lit "sub/" ++ [LF])))]
    0%Z [].


(** Every command fails and no local directory exists. *)
Definition nothing_works_env : Env unit := table_env [] 1%Z [].

(** [./upload] holds the directory [d], which cannot be read, and the file
    [f.txt]; every command succeeds. *)
Definition unreadable_subdirectory_env : Env unit :=
  table_env [] 0%Z
    [(lit "./upload", Some [lit "d"; lit "f.txt"]);
     (lit "./upload/d", None)].

(** ** Vocabulary of the further properties *)













(** The client lists, for every directory, the single line [/]. *)
Definition slash_entry_env : Env unit :=
  {| sub_run := fun _ w => (Exited 0%Z (Some [SEP; LF]), w);
     fs_makedirs := fun _ w => Some w;
     fs_listdir := fun _ _ => None;
     fs_isdir := fun _ _ => false |}.

(** [/cloud/download] lists the single line [/etc/cron.d/job]. *)
Definition absolute_entry_env : Env unit :=
  table_env
    [(DownloadFolder.lsp_command (lit "/cloud/download"),
      (0%Z, Some (lit "/etc/cron.d/job" ++ [LF])))]
    0%Z [].

(** No local directory can be made; [/cloud/download] lists the directory
    [sub] and the file [a.txt]. *)
Definition no_local_directory_env : Env unit :=
  {| sub_run := fun _ w =>
       (Exited 0%Z (Some (lit "sub/" ++ [LF] ++ lit "a.txt" ++ [LF])), w);
     fs_makedirs := fun _ _ => None;
     fs_listdir := fun _ _ => None;
     fs_isdir := fun _ _ => false |}.

(** ** Vocabulary of the amended claims *)


(** The command is started, in whatever state the world is. *)
Definition started {W} (env : Env W) (cmd : str) : Prop :=
  forall w, fst (sub_run env cmd w) <> Refused.

(** A world that does as Python does: the commands it refuses to start are
    exactly those that hold a NUL character. *)
Definition refuses_nul {W} (env : Env W) : Prop :=
  forall cmd w, fst (sub_run env cmd w) = Refused <-> has_nul cmd = true.









(** Every command succeeds and prints nothing. *)
Definition empty_listing_env : Env unit := table_env [] 0%Z [].

(** * Properties *)

(** ** The string functions on small inputs *)

Example splitlines_mixed :
  Py.splitlines (lit "a.txt" ++ [LF; LF; CR; LF] ++ lit " sub/ " ++ [LF] ++ lit "b")
  = [lit "a.txt"; []; []; lit " sub/ "; lit "b"].
Proof. reflexivity. Qed.

Example splitlines_trailing_boundary :
  Py.splitlines (lit "a" ++ [LF]) = [lit "a"] /\ Py.splitlines [LF] = [[]].
Proof. split; reflexivity. Qed.

Example strip_both_ends :
  Py.strip ([SPACE; TAB] ++ lit "a b" ++ [CR; SPACE]) = lit "a b".
Proof. reflexivity. Qed.

Example dirname_basename_examples :
  Py.dirname (lit "/cloud/upload") = lit "/cloud" /\
  Py.basename (lit "/cloud/upload") = lit "upload" /\
  Py.dirname (lit "/cloud") = lit "/" /\
  Py.dirname (lit "upload") = [] /\
  Py.dirname (lit "a//b") = lit "a" /\
  Py.basename (lit "/cloud/upload/") = [].
Proof. repeat split; reflexivity. Qed.

Example join_examples :
  Py.join (lit "./download") (lit "sub") = lit "./download/sub" /\
  Py.join (lit "./download/") (lit "sub") = lit "./download/sub" /\
  Py.join (lit "./download") (lit "/abs") = lit "/abs" /\
  Py.join (lit "./download") [] = lit "./download/".
Proof. repeat split; reflexivity. Qed.

Example quote_examples :
  Py.quote (lit "/cloud/download") = lit "/cloud/download" /\
  Py.quote (lit "a b") = lit "'a b'" /\
  Py.quote [] = lit "''" /\
  Py.quote (lit "it's") = lit "'it'" ++ [DQUOTE] ++ lit "'" ++ [DQUOTE] ++ lit "'s'".
Proof. repeat split; reflexivity. Qed.

(** ** Trimming *)

Section Trimming.
Variable p : char -> bool.

Lemma rstrip_by_all (s : str) :
  forallb p s = true -> Py.rstrip_by p s = [].
Proof.
  induction s as [|c rest IH]; simpl; [reflexivity|].
  intros H. apply andb_true_iff in H as [Hc Hrest].
  rewrite (IH Hrest), Hc. reflexivity.
Qed.

Lemma rstrip_by_nil (s : str) :
  Py.rstrip_by p s = [] -> forallb p s = true.
Proof.
  induction s as [|c rest IH]; simpl; [reflexivity|].
  destruct (Py.rstrip_by p rest) as [|x r] eqn:E.
  - destruct (p c); [intros _; simpl; apply IH; reflexivity | discriminate].
  - discriminate.
Qed.

(** What [rstrip] removes is a run of strippable characters at the end. *)
Lemma rstrip_by_split (s : str) :
  exists t, s = Py.rstrip_by p s ++ t /\ forallb p t = true.
Proof.
  induction s as [|c rest IH]; simpl.
  - exists []. split; reflexivity.
  - destruct IH as [t [Hs Ht]].
    destruct (Py.rstrip_by p rest) as [|x r] eqn:E.
    + destruct (p c) eqn:Hc.
      * exists (c :: rest). split; [reflexivity|].
        simpl. rewrite Hc. simpl. apply rstrip_by_nil. exact E.
      * exists rest. split; [reflexivity|]. apply rstrip_by_nil. exact E.
    + exists t. split; [|exact Ht]. simpl. rewrite Hs at 1. reflexivity.
Qed.

(** A string that ends in a character that is kept is left alone. *)
Lemma rstrip_by_kept (s : str) (c : char) :
  p c = false -> Py.rstrip_by p (s ++ [c]) = s ++ [c].
Proof.
  intros Hc. induction s as [|x rest IH]; simpl.
  - rewrite Hc. reflexivity.
  - rewrite IH. destruct rest; reflexivity.
Qed.

Lemma rstrip_by_app_all (s t : str) :
  forallb p t = true -> Py.rstrip_by p (s ++ t) = Py.rstrip_by p s.
Proof.
  intros Ht. induction s as [|x rest IH]; simpl.
  - apply rstrip_by_all. exact Ht.
  - rewrite IH. reflexivity.
Qed.

(** The result never ends in a strippable character. *)
Lemma rstrip_by_last (s r : str) (c : char) :
  Py.rstrip_by p s = r ++ [c] -> p c = false.
Proof.
  revert r. induction s as [|x rest IH]; simpl; intros r H.
  - destruct r; discriminate.
  - destruct (Py.rstrip_by p rest) as [|y r'] eqn:E.
    + destruct (p x) eqn:Hx.
      * destruct r; discriminate.
      * destruct r as [|z r]; [injection H as ->; exact Hx|].
        destruct r; discriminate.
    + destruct r as [|z r]; [discriminate|].
      injection H as _ H. apply (IH r). exact H.
Qed.

Lemma rstrip_by_idem (s : str) :
  Py.rstrip_by p (Py.rstrip_by p s) = Py.rstrip_by p s.
Proof.
  destruct (Py.rstrip_by p s) as [|x r] eqn:E; [reflexivity|].
  destruct (@exists_last _ (x :: r)) as [r' [c Hr]]; [discriminate|].
  rewrite Hr in *. apply rstrip_by_kept.
  apply (rstrip_by_last s r'). exact E.
Qed.

Lemma lstrip_by_head (s r : str) (c : char) :
  Py.lstrip_by p s = c :: r -> p c = false.
Proof.
  induction s as [|x rest IH]; simpl; [discriminate|].
  destruct (p x) eqn:Hx; [exact IH|].
  intros H. injection H as <- _. exact Hx.
Qed.

Lemma lstrip_by_nil (s : str) :
  Py.lstrip_by p s = [] <-> forallb p s = true.
Proof.
  induction s as [|x rest IH]; simpl; [tauto|].
  destruct (p x); simpl; [exact IH|]. split; discriminate.
Qed.

Lemma lstrip_by_split (s : str) :
  exists t, s = t ++ Py.lstrip_by p s /\ forallb p t = true.
Proof.
  induction s as [|x rest IH]; simpl.
  - exists []. split; reflexivity.
  - destruct (p x) eqn:Hx.
    + destruct IH as [t [Hs Ht]]. exists (x :: t). simpl.
      rewrite Hx, Ht. split; [f_equal; exact Hs | reflexivity].
    + exists []. split; reflexivity.
Qed.

(** [rstrip] keeps the first character of what it does not empty. *)
Lemma rstrip_by_head (s r : str) (c : char) :
  Py.rstrip_by p s = c :: r -> exists s', s = c :: s'.
Proof.
  destruct s as [|x rest]; simpl; [discriminate|].
  destruct (Py.rstrip_by p rest).
  - destruct (p x); [discriminate|]. intros H. injection H as <- _. eauto.
  - intros H. injection H as <- _. eauto.
Qed.

Lemma strip_by_nil (s : str) :
  Py.strip_by p s = [] <-> forallb p s = true.
Proof.
  unfold Py.strip_by. split.
  - intros H. apply rstrip_by_nil in H.
    destruct (lstrip_by_split s) as [t [Hs Ht]].
    rewrite Hs, forallb_app, Ht, H. reflexivity.
  - intros H. apply lstrip_by_nil in H. rewrite H. reflexivity.
Qed.

(** A trimmed string starts and ends with characters that are kept. *)
Lemma strip_by_ends (s r : str) (c : char) :
  (Py.strip_by p s = c :: r -> p c = false) /\
  (Py.strip_by p s = r ++ [c] -> p c = false).
Proof.
  unfold Py.strip_by. split; intros H.
  - destruct (rstrip_by_head _ _ _ H) as [s' Hs'].
    apply (lstrip_by_head s s'). exact Hs'.
  - apply (rstrip_by_last (Py.lstrip_by p s) r). exact H.
Qed.

Lemma strip_by_idem (s : str) :
  Py.strip_by p (Py.strip_by p s) = Py.strip_by p s.
Proof.
  destruct (Py.strip_by p s) as [|c r] eqn:E; [reflexivity|].
  pose proof (proj1 (strip_by_ends s r c) E) as Hc.
  unfold Py.strip_by at 1. simpl Py.lstrip_by. rewrite Hc.
  rewrite <- E. unfold Py.strip_by. apply rstrip_by_idem.
Qed.

End Trimming.

(** ** Directory entries and their trailing separator *)

Lemma endswith_sep_last (s : str) (c : char) :
  Py.endswith_sep (s ++ [c]) = N.eqb c SEP.
Proof.
  induction s as [|x rest IH]; [reflexivity|].
  simpl. destruct (rest ++ [c]) eqn:E; [destruct rest; discriminate|].
  exact IH.
Qed.

Lemma endswith_sep_true (s : str) :
  Py.endswith_sep s = true <-> exists b, s = b ++ [SEP].
Proof.
  split.
  - intros H. destruct s as [|x r]; [discriminate|].
    destruct (@exists_last _ (x :: r)) as [b [c Hs]]; [discriminate|].
    rewrite Hs in *. rewrite endswith_sep_last in H.
    apply N.eqb_eq in H. subst c. exists b. reflexivity.
  - intros [b ->]. rewrite endswith_sep_last. reflexivity.
Qed.

Lemma endswith_sep_cons (x y : char) (r : str) :
  Py.endswith_sep (x :: y :: r) = Py.endswith_sep (y :: r).
Proof. reflexivity. Qed.

Lemma endswith_sep_app (a b : str) (c : char) :
  Py.endswith_sep (a ++ c :: b) = Py.endswith_sep (c :: b).
Proof.
  induction a as [|x a IH]; [reflexivity|].
  rewrite <- IH. rewrite <- app_comm_cons.
  destruct (a ++ c :: b) eqn:E; [destruct a; discriminate|].
  apply endswith_sep_cons.
Qed.

Lemma all_sep_repeat (t : str) :
  forallb (N.eqb SEP) t = true -> t = repeat SEP (List.length t).
Proof.
  induction t as [|c t IH]; simpl; [reflexivity|].
  intros H. apply andb_true_iff in H as [Hc Ht].
  apply N.eqb_eq in Hc. subst c. f_equal. apply IH. exact Ht.
Qed.

Lemma rstrip_sep_no_trailing (s : str) :
  Py.endswith_sep (Py.rstrip_sep s) = false.
Proof.
  destruct (Py.rstrip_sep s) as [|x r] eqn:E; [reflexivity|].
  destruct (@exists_last _ (x :: r)) as [b [c Hs]]; [discriminate|].
  rewrite Hs in *. rewrite endswith_sep_last.
  apply rstrip_by_last in E. rewrite N.eqb_sym. exact E.
Qed.

(** Without a trailing separator there is nothing to strip. *)
Lemma rstrip_sep_none (s : str) :
  Py.endswith_sep s = false -> Py.rstrip_sep s = s.
Proof.
  intros H. destruct s as [|x r]; [reflexivity|].
  destruct (@exists_last _ (x :: r)) as [b [c Hs]]; [discriminate|].
  rewrite Hs in *. rewrite endswith_sep_last in H.
  apply rstrip_by_kept. rewrite N.eqb_sym. exact H.
Qed.

Lemma strip_one_sep_last (b : str) :
  strip_one_sep (b ++ [SEP]) = b.
Proof.
  induction b as [|x b IH]; [reflexivity|].
  rewrite <- IH at 2. rewrite <- app_comm_cons.
  destruct (b ++ [SEP]) eqn:E; [destruct b; discriminate|].
  reflexivity.
Qed.

(** C2, as the specification states it, fails on [sub//]: the listing line
    ends in two separators, the script strips both, and the traversal creates
    [./download/sub] and lists [/cloud/download/sub], where stripping exactly
    one separator would have kept [sub/]. *)
Lemma C2_two_trailing_separators_both_stripped :
  let env := table_env
    [(DownloadFolder.lsp_command (lit "/cloud/download"),
      (0%Z, Some (lit "sub//" ++ [LF])))]
    1%Z [] in
  Py.endswith_sep (Py.strip (lit "sub//")) = true /\
  strip_one_sep (lit "sub//") = lit "sub/" /\
  Py.rstrip_sep (lit "sub//") = lit "sub" /\
  Py.rstrip_sep (lit "sub//") <> strip_one_sep (lit "sub//") /\
  (exists s',
     DownloadFolder.process_remote_path env 2
       (lit "/cloud/download") (lit "./download") start = Ok tt s' /\
     steps_of (trace s') =
       [Command (DownloadFolder.lsp_command (lit "/cloud/download"));
        LocalDir (lit "./download/sub");
        Command (DownloadFolder.lsp_command (lit "/cloud/download/sub"))] /\
     ~ In (LocalDir (Py.join (lit "./download") (strip_one_sep (lit "sub//"))))
          (steps_of (trace s'))).
Proof.
  cbv zeta. repeat split; try reflexivity.
  - vm_compute. discriminate.
  - eexists. split; [vm_compute; reflexivity|]. split; [vm_compute; reflexivity|].
    vm_compute. intros [H|[H|[H|[]]]]; discriminate.
Qed.

Lemma rstrip_sep_joined (remote_path item_name : str) :
  Py.rstrip_sep (remote_path ++ SEP :: item_name)
  = if is_empty (Py.rstrip_sep item_name) then Py.rstrip_sep remote_path
    else remote_path ++ SEP :: Py.rstrip_sep item_name.
Proof.
  destruct (rstrip_by_split (N.eqb SEP) item_name) as [t [Hsplit Ht]].
  fold (Py.rstrip_sep item_name) in Hsplit.
  pose proof (rstrip_sep_no_trailing item_name) as Hnot.
  destruct (Py.rstrip_sep item_name) as [|x r] eqn:E; cbn [is_empty].
  - cbn [app] in Hsplit. subst t. unfold Py.rstrip_sep.
    apply rstrip_by_app_all. cbn [forallb]. rewrite N.eqb_refl, Ht.
    reflexivity.
  - rewrite Hsplit at 1.
    change (remote_path ++ SEP :: (x :: r) ++ t)
      with (remote_path ++ (SEP :: x :: r) ++ t).
    rewrite app_assoc. unfold Py.rstrip_sep.
    rewrite rstrip_by_app_all by exact Ht.
    apply rstrip_sep_none.
    change (remote_path ++ SEP :: x :: r)
      with (remote_path ++ [SEP] ++ x :: r).
    rewrite app_assoc, endswith_sep_app. exact Hnot.
Qed.

(** C2 (amended): a listing line whose trimmed name ends in [/] is handled as
    a directory.  The local directory name is the entry name without the
    whole run of its trailing separators, however long; the remote path of
    the recursive call is the joined path without the whole run of its
    trailing separators: the remote path, a separator and the stripped name,
    or, when the name consists of separators only and nothing of it is left,
    the remote path itself without its own trailing separators.  When the
    name ends in a single separator the stripped name is the name without
    exactly that one. *)
Theorem directory_entry_strips_trailing_separators
    (W : Type) (env : Env W) (recurse : str -> str -> M W unit)
    (remote_path local_path item : str) :
  Py.endswith_sep (Py.strip item) = true ->
  let item_name := Py.strip item in
  let dir_name := Py.rstrip_sep item_name in
  (forall s,
     DownloadFolder.process_item env recurse remote_path local_path item s =
     (os_makedirs env (Py.join local_path dir_name) ;;
      recurse (Py.rstrip_sep (remote_path ++ SEP :: item_name))
              (Py.join local_path dir_name)) s) /\
  (exists k, (0 < k)%nat /\ item_name = dir_name ++ repeat SEP k) /\
  Py.endswith_sep dir_name = false /\
  Py.rstrip_sep (remote_path ++ SEP :: item_name)
  = (if is_empty dir_name then Py.rstrip_sep remote_path
     else remote_path ++ SEP :: dir_name) /\
  (Py.endswith_sep (strip_one_sep item_name) = false ->
   dir_name = strip_one_sep item_name).
Proof.
  intros Hdir item_name dir_name. fold item_name in Hdir.
  pose proof (rstrip_sep_no_trailing item_name) as Hnot.
  fold dir_name in Hnot.
  destruct (rstrip_by_split (N.eqb SEP) item_name) as [t [Hsplit Ht]].
  fold (Py.rstrip_sep item_name) in Hsplit. fold dir_name in Hsplit.
  split; [|split; [|split; [|split]]].
  - intros s. unfold DownloadFolder.process_item. fold item_name.
    destruct item_name as [|x r] eqn:E; [discriminate|].
    cbn [is_empty]. unfold DownloadFolder.process_entry.
    rewrite Hdir. reflexivity.
  - exists (List.length t). split.
    + destruct t as [|c t]; [|simpl; lia].
      rewrite app_nil_r in Hsplit. rewrite <- Hsplit in Hnot. congruence.
    + rewrite <- (all_sep_repeat t Ht). exact Hsplit.
  - exact Hnot.
  - apply rstrip_sep_joined.
  - intros Hone. apply endswith_sep_true in Hdir as [b Hb].
    rewrite Hb, strip_one_sep_last in Hone.
    unfold dir_name. rewrite Hb, strip_one_sep_last. unfold Py.rstrip_sep.
    rewrite rstrip_by_app_all by reflexivity.
    apply rstrip_sep_none. exact Hone.
Qed.

Lemma directory_entry_strips_trailing_separators_witness :
  Py.endswith_sep (Py.strip (lit " sub// ")) = true /\
  Py.rstrip_sep (lit "/cloud/download" ++ SEP :: Py.strip (lit " sub// "))
  = lit "/cloud/download/sub".
Proof.
  split; [reflexivity|].
  apply (directory_entry_strips_trailing_separators unit
           (table_env [] 0%Z []) (fun _ _ => ret tt)
           (lit "/cloud/download") (lit "./download") (lit " sub// "));
    reflexivity.
Defined.

(** An entry of separators only: nothing of the name is left, the local
    directory is the local path with a separator, and the traversal calls
    itself on the remote path it is on. *)
Example separators_only_entry_recurses_in_place :
  Py.rstrip_sep (lit "//") = [] /\
  Py.join (lit "./download") (Py.rstrip_sep (lit "//")) = lit "./download/" /\
  Py.rstrip_sep (lit "/cloud/download" ++ SEP :: lit "//")
  = lit "/cloud/download".
Proof. repeat split. Qed.

(** ** Lines and entries of a listing *)

Lemma splitlines_no_linebreak (s : str) :
  Forall (fun line => no_linebreak line = true) (Py.splitlines s).
Proof.
  assert (Hgen : forall n s, (List.length s <= n)%nat ->
            Forall (fun line => no_linebreak line = true) (Py.splitlines s)).
  { clear s. induction n as [|n IH]; intros s Hlen.
    - destruct s; [constructor | simpl in Hlen; lia].
    - destruct s as [|c rest]; [constructor|].
      simpl in Hlen. cbn [Py.splitlines].
      destruct (Py.islinebreak c) eqn:Hc.
      + constructor; [reflexivity|].
        destruct rest as [|c' rest']; [constructor|].
        destruct (N.eqb c CR && N.eqb c' LF); apply IH; simpl in *; lia.
      + specialize (IH rest ltac:(lia)).
        destruct (Py.splitlines rest) as [|l ls].
        * constructor; [|constructor]. unfold no_linebreak. simpl.
          rewrite Hc. reflexivity.
        * inversion IH as [|? ? Hl Hls]; subst. constructor; [|exact Hls].
          unfold no_linebreak in *. simpl. rewrite Hc, Hl. reflexivity. }
  apply (Hgen (List.length s)). lia.
Qed.

(** The lines together are the text without its boundary characters. *)
Lemma splitlines_concat (s : str) :
  concat (Py.splitlines s) = filter (fun c => negb (Py.islinebreak c)) s.
Proof.
  assert (Hgen : forall n s, (List.length s <= n)%nat ->
            concat (Py.splitlines s)
            = filter (fun c => negb (Py.islinebreak c)) s).
  { clear s. induction n as [|n IH]; intros s Hlen.
    - destruct s; [reflexivity | simpl in Hlen; lia].
    - destruct s as [|c rest]; [reflexivity|].
      simpl in Hlen. cbn [Py.splitlines filter].
      destruct (Py.islinebreak c) eqn:Hc; cbn [negb].
      + cbn [concat app].
        destruct rest as [|c' rest']; [reflexivity|].
        destruct (N.eqb c CR && N.eqb c' LF) eqn:Hcrlf.
        * apply andb_true_iff in Hcrlf as [_ Hlf].
          apply N.eqb_eq in Hlf. subst c'.
          cbn [filter]. change (Py.islinebreak LF) with true. cbn [negb].
          apply IH. simpl in *. lia.
        * apply IH. simpl in *. lia.
      + rewrite <- (IH rest ltac:(lia)).
        destruct (Py.splitlines rest); reflexivity. }
  apply (Hgen (List.length s)). lia.
Qed.

(** A boundary character ends the line before it (a carriage return that is
    followed by a line feed ends it together with that line feed). *)
Lemma splitlines_boundary (line rest : str) (b : char) :
  no_linebreak line = true ->
  Py.islinebreak b = true ->
  (b = CR -> hd_error rest <> Some LF) ->
  Py.splitlines (line ++ b :: rest) = line :: Py.splitlines rest.
Proof.
  intros Hline Hb Hcr. induction line as [|c line IH].
  - cbn [app Py.splitlines]. rewrite Hb.
    destruct rest as [|c' rest']; [reflexivity|].
    destruct (N.eqb_spec b CR) as [->|_]; [|reflexivity].
    destruct (N.eqb_spec c' LF) as [->|_]; [|reflexivity].
    exfalso. apply Hcr; reflexivity.
  - unfold no_linebreak in Hline. cbn [forallb] in Hline.
    apply andb_true_iff in Hline as [Hc Hline].
    apply negb_true_iff in Hc.
    rewrite <- app_comm_cons. cbn [Py.splitlines]. rewrite Hc.
    rewrite (IH Hline). reflexivity.
Qed.

Lemma splitlines_crlf (line rest : str) :
  no_linebreak line = true ->
  Py.splitlines (line ++ CR :: LF :: rest) = line :: Py.splitlines rest.
Proof.
  intros Hline. induction line as [|c line IH].
  - reflexivity.
  - unfold no_linebreak in Hline. cbn [forallb] in Hline.
    apply andb_true_iff in Hline as [Hc Hline].
    apply negb_true_iff in Hc.
    rewrite <- app_comm_cons. cbn [Py.splitlines]. rewrite Hc.
    rewrite (IH Hline). reflexivity.
Qed.

(** A last line without a boundary after it is a line all the same. *)
Lemma splitlines_last (line : str) :
  no_linebreak line = true -> line <> [] -> Py.splitlines line = [line].
Proof.
  induction line as [|c line IH]; [congruence|].
  intros Hline _. unfold no_linebreak in Hline. cbn [forallb] in Hline.
  apply andb_true_iff in Hline as [Hc Hline].
  apply negb_true_iff in Hc. cbn [Py.splitlines]. rewrite Hc.
  destruct line as [|c' line']; [reflexivity|].
  rewrite IH; [reflexivity | exact Hline | discriminate].
Qed.

Lemma is_empty_strip (line : str) :
  is_empty (Py.strip line) = blank line.
Proof.
  unfold blank.
  destruct (forallb Py.isspace line) eqn:E.
  - apply strip_by_nil in E. unfold Py.strip. rewrite E. reflexivity.
  - destruct (Py.strip line) eqn:Es; [|reflexivity].
    apply strip_by_nil in Es. congruence.
Qed.

(** The entries are the trimmed non-blank lines, in the order of the lines. *)
Lemma entries_filter_map (items : list str) :
  entries items = map Py.strip (filter (fun l => negb (blank l)) items).
Proof.
  unfold entries. induction items as [|item items IH]; [reflexivity|].
  cbn [map filter]. rewrite is_empty_strip.
  destruct (blank item); cbn [negb map]; rewrite IH; reflexivity.
Qed.

Lemma entries_trimmed (items : list str) :
  Forall (fun name => name <> [] /\ Py.strip name = name) (entries items).
Proof.
  unfold entries. apply Forall_forall. intros name Hin.
  apply filter_In in Hin as [Hin Hne]. apply in_map_iff in Hin as [l [<- _]].
  split.
  - destruct (Py.strip l); [discriminate | discriminate].
  - apply strip_by_idem.
Qed.

(** ** Running the monad *)

Lemma subprocess_run_capture_eq {W} (env : Env W) (cmd : str) (s : st W)
    (rc : Z) (out : str) (w' : W) :
  sub_run env cmd (world s) = (Exited rc (Some out), w') ->
  subprocess_run_capture env cmd s =
  let s' := {| world := w'; trace := trace s ++ [Run cmd rc] |} in
  if Z.eqb rc 0 then Ok out s' else Raised (CalledProcessError cmd rc) s'.
Proof. intros H. unfold subprocess_run_capture. rewrite H. reflexivity. Qed.

Lemma subprocess_run_capture_undecodable {W} (env : Env W) (cmd : str)
    (s : st W) (rc : Z) (w' : W) :
  sub_run env cmd (world s) = (Exited rc None, w') ->
  subprocess_run_capture env cmd s =
  Raised UnicodeDecodeError
    {| world := w'; trace := trace s ++ [Run cmd rc] |}.
Proof. intros H. unfold subprocess_run_capture. rewrite H. reflexivity. Qed.


(** In a world that does as Python does, the commands that are started are
    those without a NUL character; the worlds of the examples are such. *)
Lemma started_iff_no_nul {W} (env : Env W) (cmd : str) (w0 : W) :
  refuses_nul env -> (started env cmd <-> has_nul cmd = false).
Proof.
  intros Hlaw. split.
  - intros Hstarted. destruct (has_nul cmd) eqn:E; [|reflexivity].
    exfalso. apply (Hstarted w0). apply Hlaw. exact E.
  - intros Hnul w Href. apply Hlaw in Href. congruence.
Qed.

Lemma table_env_refuses_nul (answers : list (str * (Z * option str)))
    (default : Z) (local_dirs : list (str * option (list str))) :
  refuses_nul (table_env answers default local_dirs).
Proof.
  intros cmd w. cbn [table_env sub_run fst].
  destruct (has_nul cmd).
  - split; reflexivity.
  - split; [|discriminate].
    destruct (lookup cmd answers) as [[rc captured]|]; discriminate.
Qed.



(** A loop that trims each line and skips the blank ones is the loop over
    the entries. *)
Lemma for_each_entries {W} (body k : str -> M W unit) :
  (forall item,
     body item = if is_empty (Py.strip item) then ret tt
                 else k (Py.strip item)) ->
  forall items s, for_each items body s = for_each (entries items) k s.
Proof.
  intros Hbody items. unfold entries.
  induction items as [|item items IH]; intros s; [reflexivity|].
  cbn [for_each map filter]. unfold bind at 1. rewrite Hbody.
  destruct (is_empty (Py.strip item)); cbn [negb].
  - apply IH.
  - cbn [for_each]. unfold bind.
    destruct (k (Py.strip item) s); try reflexivity. apply IH.
Qed.

Lemma entries_no_outer_space (items : list str) :
  Forall trimmed (entries items).
Proof.
  unfold entries. apply Forall_forall. intros name Hin.
  apply filter_In in Hin as [Hin _]. apply in_map_iff in Hin as [l [<- _]].
  split.
  - intros c r H. apply (proj1 (strip_by_ends Py.isspace l r c)). exact H.
  - intros r c H. apply (proj2 (strip_by_ends Py.isspace l r c)). exact H.
Qed.

Lemma get_remote_files_ok {W} (env : Env W) (remote_path : str) (s : st W)
    (out : str) (w' : W) :
  sub_run env (DownloadFolder.lsp_command remote_path) (world s)
  = (Exited 0%Z (Some out), w') ->
  DownloadFolder.get_remote_files env remote_path s =
  Ok (Py.splitlines out)
     {| world := w';
        trace := trace s ++ [Run (DownloadFolder.lsp_command remote_path) 0%Z] |}.
Proof.
  intros H. unfold DownloadFolder.get_remote_files, try_except, bind.
  rewrite (subprocess_run_capture_eq env _ s _ _ _ H). reflexivity.
Qed.


(** C3: when the listing command succeeds, [get_remote_files] returns the
    lines of its output, split at the line boundaries (no line holds a
    boundary character, and the lines together are the output without its
    boundary characters); the traversal loop then acts on exactly the
    entries: each line trimmed of white space at both ends, the blank and
    white-space-only lines left out, the others kept in their order. *)
Theorem listing_split_trimmed_filtered
    (W : Type) (env : Env W) (remote_path : str) (s : st W)
    (out : str) (w' : W) :
  sub_run env (DownloadFolder.lsp_command remote_path) (world s)
  = (Exited 0%Z (Some out), w') ->
  let s' := {| world := w';
               trace := trace s ++
                 [Run (DownloadFolder.lsp_command remote_path) 0%Z] |} in
  let lines := Py.splitlines out in
  DownloadFolder.get_remote_files env remote_path s = Ok lines s' /\
  (forall fuel local_path,
     DownloadFolder.process_remote_path env (S fuel) remote_path local_path s
     = for_each (entries lines)
         (DownloadFolder.process_entry env
            (DownloadFolder.process_remote_path env fuel)
            remote_path local_path) s') /\
  Forall (fun line => no_linebreak line = true) lines /\
  concat lines = filter (fun c => negb (Py.islinebreak c)) out /\
  entries lines = map Py.strip (filter (fun l => negb (blank l)) lines) /\
  Forall (fun name => name <> [] /\ Py.strip name = name /\ trimmed name)
         (entries lines).
Proof.
  intros H s' lines.
  pose proof (get_remote_files_ok env remote_path s out w' H) as Hget.
  repeat split.
  - exact Hget.
  - intros fuel local_path. cbn [DownloadFolder.process_remote_path].
    unfold bind at 1. rewrite Hget.
    apply for_each_entries. intros item. reflexivity.
  - apply splitlines_no_linebreak.
  - apply splitlines_concat.
  - apply entries_filter_map.
  - apply Forall_forall. intros name Hin.
    pose proof (entries_trimmed lines) as H1.
    pose proof (entries_no_outer_space lines) as H2.
    rewrite Forall_forall in H1, H2.
    destruct (H1 name Hin) as [Hne Hid]. repeat split; auto.
    + apply (H2 name Hin).
    + apply (H2 name Hin).
Qed.

Lemma listing_split_trimmed_filtered_witness :
  let out := lit "a.txt" ++ [LF; LF; SPACE; TAB; CR; LF] ++ lit " sub/ " ++ [LF] in
  let env := table_env
    [(DownloadFolder.lsp_command (lit "/cloud/download"), (0%Z, Some out))]
    0%Z [] in
  sub_run env (DownloadFolder.lsp_command (lit "/cloud/download")) tt
  = (Exited 0%Z (Some out), tt) /\
  entries (Py.splitlines out) = [lit "a.txt"; lit "sub/"] /\
  DownloadFolder.get_remote_files env (lit "/cloud/download") start
  = Ok [lit "a.txt"; []; [SPACE; TAB]; lit " sub/ "]
       {| world := tt;
          trace := [Run (DownloadFolder.lsp_command (lit "/cloud/download")) 0%Z] |}.
Proof.
  cbv zeta. split; [reflexivity|]. split; [reflexivity|].
  apply (listing_split_trimmed_filtered unit _ (lit "/cloud/download") start
           (lit "a.txt" ++ [LF; LF; SPACE; TAB; CR; LF] ++ lit " sub/ " ++ [LF])
           tt).
  reflexivity.
Defined.

(** ** Failures of the external command *)









(** The sibling after a subdirectory whose listing fails is still
    downloaded. *)
Example sibling_after_failed_listing :
  exists s',
    DownloadFolder.main failing_subdirectory_env 2 start = Ok tt s' /\
    steps_of (trace s') =
      [LocalDir (lit "./download");
       Command (DownloadFolder.lsp_command (lit "/cloud/download"));
       LocalDir (lit "./download/bad");
       Command (DownloadFolder.lsp_command (lit "/cloud/download/bad"));
       Command (DownloadFolder.download_command
                  (lit "/cloud/download/b.txt") (lit "./download/b.txt"))].
Proof. eexists. split; vm_compute; reflexivity. Qed.

(** ** Purging the recycle bin *)

Lemma get_remote_recycle_files_eq {W} (env : Env W) (s : st W)
    (rc : Z) (out : str) (w' : W) :
  sub_run env ClearRecycle.lsp_recycle_command (world s)
  = (Exited rc (Some out), w') ->
  ClearRecycle.get_remote_recycle_files env s =
  Ok (if Z.eqb rc 0 then Py.splitlines out else [])
     {| world := w'; trace := trace s ++ recycle_listing_report rc |}.
Proof.
  intros H. unfold ClearRecycle.get_remote_recycle_files, try_except, bind.
  rewrite (subprocess_run_capture_eq env _ s _ _ _ H). cbv zeta.
  unfold recycle_listing_report. destruct (Z.eqb rc 0); [reflexivity|].
  unfold print, emit, ret. cbn [world trace].
  rewrite <- app_assoc. reflexivity.
Qed.













(** With entries [x.txt] and [y.txt], where removing [x.txt] fails, the
    removal of [y.txt] is attempted all the same and reported. *)
Example purge_x_fails_y_removed :
  ClearRecycle.clear_recycle recycle_x_fails_env start =
  Ok tt
    {| world := tt;
       trace :=
         [Run (lit "reccli-ts run -c " ++ DQUOTE :: lit "lsp /recycle"
               ++ [DQUOTE]) 0%Z;
          Run (lit "reccli-ts run -c " ++ DQUOTE :: lit "rm /recycle/x.txt"
               ++ [DQUOTE]) 1%Z;
          Print (ErrorRemoving (lit "/recycle/x.txt")
                   (CalledProcessError
                      (ClearRecycle.rm_command (lit "/recycle/x.txt")) 1%Z));
          Run (lit "reccli-ts run -c " ++ DQUOTE :: lit "rm /recycle/y.txt"
               ++ [DQUOTE]) 0%Z;
          Print (Removed (lit "/recycle/y.txt"))] |}.
Proof. vm_compute. reflexivity. Qed.



(** A directory entry [sub/] is removed by the single command
    [rm /recycle/sub/]; nothing below it is listed. *)
Example purge_directory_entry :
  ClearRecycle.clear_recycle recycle_with_directory_env start =
  Ok tt
    {| world := tt;
       trace :=
         [Run (reccli (lit "lsp /recycle")) 0%Z;
          Run (reccli (lit "rm /recycle/sub/")) 0%Z;
          Print (Removed (lit "/recycle/sub/"))] |}.
Proof. vm_compute. reflexivity. Qed.

(** ** Ensuring a remote directory *)














Lemma commands_of_creation (remote_path : str) (rc : Z) :
  commands_of (creation_report remote_path rc)
  = [UploadFolder.mkdir_command remote_path].
Proof. reflexivity. Qed.





(** A directory that its parent does not list is created: the listing of
    [/cloud] is followed by [mkdir /cloud/upload]. *)
Example unlisted_directory_is_created :
  UploadFolder.ensure_remote_path empty_listing_env (lit "/cloud/upload") start
  = Ok tt
      {| world := tt;
         trace :=
           [Run (lit "reccli-ts run -c " ++ DQUOTE :: lit "lsp /cloud"
                 ++ [DQUOTE]) 0%Z;
            Run (lit "reccli-ts run -c " ++ DQUOTE :: lit "mkdir /cloud/upload"
                 ++ [DQUOTE]) 0%Z;
            Print (CreatedRemoteDirectory (lit "/cloud/upload"))] |}.
Proof. vm_compute. reflexivity. Qed.




(** ** Failures of the local file system in the upload traversal *)





(** [./upload] holds the directory [d], which cannot be read, and the file
    [f.txt]: the traversal ends with the [OSError] of [./upload/d], and
    [f.txt] is never uploaded. *)
Example unreadable_subdirectory_aborts_siblings :
  exists s',
    UploadFolder.main unreadable_subdirectory_env 2 start
    = Raised (OSError (lit "./upload/d")) s' /\
    commands_of (trace s') =
      [UploadFolder.lsp_command (lit "/cloud");
       UploadFolder.mkdir_command (lit "/cloud/upload");
       UploadFolder.lsp_command (lit "/cloud/upload");
       UploadFolder.mkdir_command (lit "/cloud/upload/d");
       UploadFolder.lsp_command (lit "/cloud/upload");
       UploadFolder.mkdir_command (lit "/cloud/upload/d")].
Proof. eexists. split; vm_compute; reflexivity. Qed.

(** ** Mirroring a remote tree *)


Lemma no_sep_no_trailing (n : str) :
  forallb (fun c => negb (N.eqb SEP c)) n = true -> Py.endswith_sep n = false.
Proof.
  intros H. destruct (Py.endswith_sep n) eqn:E; [|reflexivity].
  apply endswith_sep_true in E as [b ->].
  rewrite forallb_app in H. apply andb_true_iff in H as [_ H].
  discriminate.
Qed.












Section Mirror.
Context {W : Type} (env : Env W).
Hypothesis makedirs_succeeds : forall p w, fs_makedirs env p w <> None.

Lemma os_makedirs_ok (path : str) (s : st W) :
  exists w',
    os_makedirs env path s =
    Ok tt {| world := w'; trace := trace s ++ [Makedirs path] |}.
Proof.
  unfold os_makedirs.
  destruct (fs_makedirs env path (world s)) as [w'|] eqn:E.
  - eauto.
  - exfalso. exact (makedirs_succeeds path (world s) E).
Qed.



End Mirror.




(** The run on [/cloud/download/{a.txt, sub/b.txt}] in full: [./download/sub]
    is made before [/cloud/download/sub] is listed, and the two files arrive
    at [./download/a.txt] and [./download/sub/b.txt]. *)
Example download_example_tree :
  DownloadFolder.main example_tree_env 2 start =
  Ok tt
    {| world := tt;
       trace :=
         [Makedirs (lit "./download");
          Run (lit "reccli-ts run -c " ++ DQUOTE :: lit "lsp /cloud/download"
               ++ [DQUOTE]) 0%Z;
          Run (lit "reccli-ts run -c " ++ DQUOTE
               :: lit "download /cloud/download/a.txt ./download/a.txt"
               ++ [DQUOTE]) 0%Z;
          Print (Downloaded (lit "/cloud/download/a.txt")
                            (lit "./download/a.txt"));
          Makedirs (lit "./download/sub");
          Run (lit "reccli-ts run -c " ++ DQUOTE
               :: lit "lsp /cloud/download/sub" ++ [DQUOTE]) 0%Z;
          Run (lit "reccli-ts run -c " ++ DQUOTE
               :: lit "download /cloud/download/sub/b.txt ./download/sub/b.txt"
               ++ [DQUOTE]) 0%Z;
          Print (Downloaded (lit "/cloud/download/sub/b.txt")
                            (lit "./download/sub/b.txt"))] |}.
Proof. vm_compute. reflexivity. Qed.

(** ** Quoting for the shell *)

Lemma char_in_not_safe (l : list char) (c : char) :
  forallb (fun k => negb (Py.is_safe k)) l = true ->
  char_in l c = true -> Py.is_safe c = false.
Proof.
  intros Hl Hc. unfold char_in in Hc. apply existsb_exists in Hc as [k [Hin Hk]].
  apply N.eqb_eq in Hk. subst k.
  rewrite forallb_forall in Hl. apply negb_true_iff. apply Hl. exact Hin.
Qed.

(** A character [shlex.quote] leaves bare means nothing to the shell. *)
Lemma safe_is_literal (c : char) :
  Py.is_safe c = true ->
  Sh.is_blank c = false /\ N.eqb c SQUOTE = false /\ N.eqb c DQUOTE = false /\
  N.eqb c BACKSLASH = false /\ N.eqb c DOLLAR = false /\
  Sh.is_meta c = false /\ Sh.is_meta_at_start c = false.
Proof.
  intros Hsafe.
  assert (Hone : forall k, Py.is_safe k = false -> N.eqb c k = false).
  { intros k Hk. destruct (N.eqb_spec c k) as [->|]; congruence. }
  assert (Hset : forall l, forallb (fun k => negb (Py.is_safe k)) l = true ->
                           char_in l c = false).
  { intros l Hl. destruct (char_in l c) eqn:E; [|reflexivity].
    apply (char_in_not_safe l c Hl) in E. congruence. }
  repeat split; try (apply Hone; reflexivity); apply Hset; reflexivity.
Qed.

Lemma lex_plain_safe (cur : option str) (c : char) (rest : str) :
  Py.is_safe c = true ->
  Sh.lex Sh.Plain cur (c :: rest) = Sh.lex Sh.Plain (Sh.push cur c) rest.
Proof.
  intros Hsafe.
  destruct (safe_is_literal c Hsafe) as [Hb [Hs [Hd [Hbs [Hdl [Hm Hms]]]]]].
  cbn [Sh.lex]. rewrite Hb, Hs, Hd, Hbs, Hdl, Hm, Hms.
  destruct cur; reflexivity.
Qed.

Lemma lex_plain_safe_word (s : str) :
  forall cur,
    forallb Py.is_safe s = true ->
    Sh.lex Sh.Plain (Some cur) s = Sh.Words [cur ++ s].
Proof.
  induction s as [|c s IH]; intros cur Hsafe.
  - cbn. rewrite app_nil_r. reflexivity.
  - cbn [forallb] in Hsafe. apply andb_true_iff in Hsafe as [Hc Hs].
    rewrite (lex_plain_safe _ c s Hc). unfold Sh.push. cbn [Sh.word_of].
    rewrite (IH _ Hs), <- app_assoc. reflexivity.
Qed.

(** Between single quotes, the text [shlex.quote] writes for [s] is read
    back as [s], up to the closing quote. *)
Lemma lex_single_quoted (s : str) :
  forall w tail,
    Sh.lex Sh.InSingle (Some w)
      (Py.replace_squote [SQUOTE; DQUOTE; SQUOTE; DQUOTE; SQUOTE] s
       ++ SQUOTE :: tail)
    = Sh.lex Sh.Plain (Some (w ++ s)) tail.
Proof.
  induction s as [|c s IH]; intros w tail.
  - cbn [Py.replace_squote app]. rewrite app_nil_r. reflexivity.
  - cbn [Py.replace_squote].
    destruct (N.eqb_spec c SQUOTE) as [->|Hc].
    + rewrite <- app_assoc. cbn [app].
      change (Sh.lex Sh.InSingle (Some (w ++ [SQUOTE]))
                (Py.replace_squote [SQUOTE; DQUOTE; SQUOTE; DQUOTE; SQUOTE] s
                 ++ SQUOTE :: tail)
              = Sh.lex Sh.Plain (Some (w ++ SQUOTE :: s)) tail).
      rewrite IH, <- app_assoc. reflexivity.
    + rewrite <- app_comm_cons. cbn [Sh.lex].
      apply N.eqb_neq in Hc. rewrite Hc. unfold Sh.push. cbn [Sh.word_of].
      rewrite IH, <- app_assoc. reflexivity.
Qed.

(** On its own, as a word of a command line, the escaped form of a path is
    read back by the shell as that path, one word, whatever the path
    holds. *)
Lemma quote_roundtrip (s : str) :
  Sh.words (Py.quote s) = Sh.Words [s].
Proof.
  unfold Sh.words, Py.quote.
  destruct s as [|c s]; [reflexivity|]. cbn [is_empty].
  destruct (forallb Py.is_safe (c :: s)) eqn:Hsafe.
  - cbn [forallb] in Hsafe. apply andb_true_iff in Hsafe as [Hc Hs].
    rewrite (lex_plain_safe None c s Hc). unfold Sh.push. cbn [Sh.word_of app].
    apply (lex_plain_safe_word s [c] Hs).
  - change (Sh.lex Sh.InSingle (Some [])
              (Py.replace_squote [SQUOTE; DQUOTE; SQUOTE; DQUOTE; SQUOTE]
                 (c :: s) ++ [SQUOTE])
            = Sh.Words [c :: s]).
    rewrite lex_single_quoted. reflexivity.
Qed.

Lemma lex_double_literal (t : str) :
  forall w tail,
    forallb dq_literal t = true ->
    Sh.lex Sh.InDouble (Some w) (t ++ DQUOTE :: tail)
    = Sh.lex Sh.Plain (Some (w ++ t)) tail.
Proof.
  induction t as [|c t IH]; intros w tail Hlit.
  - cbn [app]. rewrite app_nil_r. reflexivity.
  - cbn [forallb] in Hlit. apply andb_true_iff in Hlit as [Hc Ht].
    unfold dq_literal, char_in in Hc. cbn [existsb] in Hc.
    rewrite !negb_orb, !andb_true_iff, !negb_true_iff in Hc.
    destruct Hc as [Hdq [Hdollar [Htick [Hbs _]]]].
    rewrite <- app_comm_cons. cbn [Sh.lex].
    rewrite Hdq, Htick, Hdollar, Hbs. cbn [orb].
    unfold Sh.push. cbn [Sh.word_of].
    rewrite (IH _ _ Ht), <- app_assoc. reflexivity.
Qed.

Lemma replace_squote_none (new s : str) :
  forallb (fun c => negb (N.eqb c SQUOTE)) s = true ->
  Py.replace_squote new s = s.
Proof.
  induction s as [|c s IH]; [reflexivity|].
  cbn [forallb Py.replace_squote]. rewrite andb_true_iff, negb_true_iff.
  intros [-> Hs]. rewrite (IH Hs). reflexivity.
Qed.

Lemma plain_path_quote (path : str) :
  plain_path path = true -> forallb dq_literal (Py.quote path) = true.
Proof.
  intros Hplain. unfold plain_path in Hplain.
  assert (Hsq : forallb (fun c => negb (N.eqb c SQUOTE)) path = true).
  { rewrite forallb_forall in *. intros c Hin.
    apply Hplain in Hin. apply andb_true_iff in Hin as [H _]. exact H. }
  assert (Hdq : forallb dq_literal path = true).
  { rewrite forallb_forall in *. intros c Hin.
    apply Hplain in Hin. apply andb_true_iff in Hin as [_ H]. exact H. }
  unfold Py.quote. destruct (is_empty path); [reflexivity|].
  destruct (forallb Py.is_safe path); [exact Hdq|].
  rewrite (replace_squote_none _ path Hsq).
  cbn [forallb]. rewrite forallb_app, Hdq. reflexivity.
Qed.

(** For a plain path, the shell hands the client its command with the
    escaped path in it, as one argument after [-c]. *)
Lemma plain_path_reaches_client (verb path : str) :
  forallb dq_literal verb = true ->
  plain_path path = true ->
  Sh.words (reccli (verb ++ Py.quote path))
  = Sh.Words [lit "reccli-ts"; lit "run"; lit "-c"; verb ++ Py.quote path].
Proof.
  intros Hverb Hplain. unfold Sh.words, reccli.
  change (Sh.close_word (Some (lit "reccli-ts"))
            (Sh.close_word (Some (lit "run"))
               (Sh.close_word (Some (lit "-c"))
                  (Sh.lex Sh.InDouble (Some [])
                     ((verb ++ Py.quote path) ++ [DQUOTE]))))
          = Sh.Words [lit "reccli-ts"; lit "run"; lit "-c";
                      verb ++ Py.quote path]).
  rewrite lex_double_literal.
  - reflexivity.
  - rewrite forallb_app, Hverb. apply plain_path_quote. exact Hplain.
Qed.

(** C1 fails on the code: [escape_shell_path] alone is read back by the
    shell as the path ([quote_roundtrip]), but every script puts the escaped
    path between the double quotes of [reccli-ts run -c], where single
    quotes protect nothing.  For the remote name [a b], double quote, [c],
    the listing command is a shell syntax error (a quote left open); a
    double-quoted gap in a name of the recycle bin adds the argument
    [--force] to the command line; a [$] in a local name reaches the shell
    as an expansion; and a pair of double quotes in a name is removed from
    the path the client gets. *)
Theorem double_quotes_defeat_escaping :
  let path := lit "a b" ++ [DQUOTE] ++ lit "c" in
  Sh.words (DownloadFolder.escape_shell_path path) = Sh.Words [path] /\
  Sh.words (DownloadFolder.lsp_command path) = Sh.Unterminated /\
  Sh.words (ClearRecycle.rm_command
              (lit "/recycle/x" ++ [DQUOTE] ++ lit " --force "
               ++ [DQUOTE] ++ lit "y"))
  = Sh.Words [lit "reccli-ts"; lit "run"; lit "-c";
              lit "rm '/recycle/x"; lit "--force"; lit "y'"] /\
  Sh.words (UploadFolder.mkdir_command (lit "/cloud/upload/$(reboot)"))
  = Sh.Interprets DOLLAR /\
  Sh.words (DownloadFolder.download_command
              (lit "/cloud/download/a" ++ [DQUOTE] ++ lit "b" ++ [DQUOTE]
               ++ lit "c") (lit "./download/x"))
  = Sh.Words [lit "reccli-ts"; lit "run"; lit "-c";
              lit "download '/cloud/download/abc' ./download/x"].
Proof. cbv zeta. repeat split; vm_compute; reflexivity. Qed.

(** * Further properties of the scripts *)

(** ** Escaping on its own *)

(** X1: [escape_shell_path], the same function in the three scripts, writes
    a path so that the shell reads it back as exactly that path, one word,
    whatever characters the path holds; different paths therefore have
    different escaped forms. *)
Theorem escape_shell_path_read_back (path : str) :
  Sh.words (DownloadFolder.escape_shell_path path) = Sh.Words [path] /\
  Sh.words (UploadFolder.escape_shell_path path) = Sh.Words [path] /\
  Sh.words (ClearRecycle.escape_shell_path path) = Sh.Words [path] /\
  forall other,
    DownloadFolder.escape_shell_path path
    = DownloadFolder.escape_shell_path other ->
    path = other.
Proof.
  repeat split; try apply quote_roundtrip.
  intros other Heq.
  pose proof (quote_roundtrip path) as Hp.
  pose proof (quote_roundtrip other) as Ho.
  unfold DownloadFolder.escape_shell_path in Heq. rewrite Heq in Hp.
  rewrite Hp in Ho. injection Ho as ->. reflexivity.
Qed.

(** ** The recycle bin with nothing to remove *)

Lemma entries_all_blank (items : list str) :
  forallb blank items = true -> entries items = [].
Proof.
  unfold entries. induction items as [|item items IH]; [reflexivity|].
  cbn [forallb map filter]. rewrite andb_true_iff. intros [Hb Hrest].
  rewrite is_empty_strip, Hb. cbn [negb]. apply IH. exact Hrest.
Qed.

(** X3: when the listing of [/recycle] exits with a non-zero status, or
    succeeds with nothing but blank lines, and what was captured of its
    output is valid UTF-8, [clear_recycle] issues no remove command at all:
    the listing command [reccli-ts run -c "lsp /recycle"] (and, on failure,
    its error line) is all it leaves, and it returns normally.  When the
    captured output is not valid UTF-8, [clear_recycle] ends with
    [UnicodeDecodeError] after the listing command, again without any remove
    command. *)
Theorem purge_with_nothing_listed
    (W : Type) (env : Env W) (s : st W) (rc : Z) (out : str) (w' : W) :
  sub_run env ClearRecycle.lsp_recycle_command (world s)
  = (Exited rc (Some out), w') ->
  rc <> 0%Z \/ forallb blank (Py.splitlines out) = true ->
  ClearRecycle.clear_recycle env s
  = Ok tt {| world := w'; trace := trace s ++ recycle_listing_report rc |} /\
  commands_of (recycle_listing_report rc)
  = [lit "reccli-ts run -c " ++ DQUOTE :: lit "lsp /recycle" ++ [DQUOTE]] /\
  (forall (s0 : st W) (rc0 : Z) (w0 : W),
     sub_run env ClearRecycle.lsp_recycle_command (world s0)
     = (Exited rc0 None, w0) ->
     ClearRecycle.clear_recycle env s0
     = Raised UnicodeDecodeError
         {| world := w0;
            trace := trace s0
                     ++ [Run ClearRecycle.lsp_recycle_command rc0] |}).
Proof.
  intros H Hnone. split; [|split].
  - unfold ClearRecycle.clear_recycle, bind.
    rewrite (get_remote_recycle_files_eq env s rc out w' H).
    rewrite (for_each_entries (ClearRecycle.remove_item env)
               (ClearRecycle.remove_entry env))
      by (intros item; reflexivity).
    assert (Hno : entries (if Z.eqb rc 0 then Py.splitlines out else []) = []).
    { destruct Hnone as [Hrc|Hblank].
      - apply Z.eqb_neq in Hrc. rewrite Hrc. reflexivity.
      - destruct (Z.eqb rc 0); [|reflexivity].
        apply entries_all_blank. exact Hblank. }
    rewrite Hno. reflexivity.
  - unfold recycle_listing_report. destruct (Z.eqb rc 0); reflexivity.
  - intros s0 rc0 w0 H0.
    unfold ClearRecycle.clear_recycle,
      ClearRecycle.get_remote_recycle_files, try_except, bind.
    rewrite (subprocess_run_capture_undecodable env _ s0 rc0 w0 H0).
    reflexivity.
Qed.

Lemma purge_with_nothing_listed_witness :
  sub_run nothing_works_env ClearRecycle.lsp_recycle_command (world start)
  = (Exited 1%Z (Some []), tt) /\
  (1%Z <> 0%Z \/ forallb blank (Py.splitlines []) = true) /\
  ClearRecycle.clear_recycle nothing_works_env start
  = Ok tt
      {| world := tt;
         trace :=
           [Run (lit "reccli-ts run -c " ++ DQUOTE :: lit "lsp /recycle"
                 ++ [DQUOTE]) 1%Z;
            Print (ErrorRetrievingRecycle
                     (CalledProcessError
                        ClearRecycle.lsp_recycle_command 1%Z))] |}.
Proof.
  split; [reflexivity|]. split; [left; discriminate|].
  apply (purge_with_nothing_listed unit nothing_works_env start 1%Z [] tt);
    [reflexivity | left; discriminate].
Defined.

(** ** Paths of the upload script *)

Lemma all_sep_repeat_sep (k : nat) :
  forallb (N.eqb SEP) (repeat SEP k) = true.
Proof. induction k as [|k IH]; [reflexivity|]. cbn. rewrite IH. reflexivity. Qed.

(** X4: [remote_path_exists] does not see trailing separators: with any
    number of [/] added to the path it lists the same parent, looks for the
    same name, and gives the same answer. *)
Theorem remote_path_exists_ignores_trailing_separators
    (W : Type) (env : Env W) (remote_path : str) (k : nat) (s : st W) :
  UploadFolder.parent_path (remote_path ++ repeat SEP k)
  = UploadFolder.parent_path remote_path /\
  UploadFolder.directory_name (remote_path ++ repeat SEP k)
  = UploadFolder.directory_name remote_path /\
  UploadFolder.remote_path_exists env (remote_path ++ repeat SEP k) s
  = UploadFolder.remote_path_exists env remote_path s.
Proof.
  assert (Hstrip : Py.rstrip_sep (remote_path ++ repeat SEP k)
                   = Py.rstrip_sep remote_path).
  { apply rstrip_by_app_all, all_sep_repeat_sep. }
  unfold UploadFolder.remote_path_exists, UploadFolder.parent_path,
    UploadFolder.directory_name.
  rewrite Hstrip. repeat split.
Qed.

Lemma cut_last_sep_no_sep (item : str) :
  forallb (fun c => negb (N.eqb SEP c)) item = true ->
  Py.cut_last_sep item = ([], item).
Proof.
  induction item as [|c item IH]; [reflexivity|].
  cbn [forallb]. rewrite andb_true_iff, negb_true_iff. intros [Hc Hrest].
  cbn [Py.cut_last_sep]. rewrite (IH Hrest).
  rewrite N.eqb_sym, Hc. reflexivity.
Qed.

Lemma cut_last_sep_item (a item : str) :
  forallb (fun c => negb (N.eqb SEP c)) item = true ->
  Py.cut_last_sep (a ++ SEP :: item) = (a ++ [SEP], item).
Proof.
  intros Hitem. induction a as [|x a IH].
  - cbn [app Py.cut_last_sep]. rewrite (cut_last_sep_no_sep item Hitem).
    rewrite N.eqb_refl. reflexivity.
  - rewrite <- !app_comm_cons. cbn [Py.cut_last_sep]. rewrite IH.
    destruct (a ++ [SEP]) eqn:E; [destruct a; discriminate|]. reflexivity.
Qed.

Lemma not_all_sep (remote : str) :
  remote <> [] -> Py.endswith_sep remote = false ->
  forallb (N.eqb SEP) (remote ++ [SEP]) = false.
Proof.
  intros Hne Hend.
  destruct (@exists_last _ remote Hne) as [b [c ->]].
  rewrite endswith_sep_last in Hend.
  rewrite !forallb_app. cbn [forallb].
  rewrite (N.eqb_sym SEP c), Hend. cbn.
  rewrite andb_false_r. reflexivity.
Qed.

Lemma dirname_of_item (remote item : str) :
  remote <> [] -> Py.endswith_sep remote = false ->
  forallb (fun c => negb (N.eqb SEP c)) item = true ->
  Py.dirname (remote ++ SEP :: item) = remote.
Proof.
  intros Hne Hend Hitem. unfold Py.dirname.
  rewrite (cut_last_sep_item remote item Hitem). cbn [fst].
  rewrite (not_all_sep remote Hne Hend).
  destruct (remote ++ [SEP]) eqn:E; [destruct remote; discriminate|].
  cbn [is_empty negb andb]. rewrite <- E. unfold Py.rstrip_sep.
  rewrite rstrip_by_app_all by reflexivity.
  apply rstrip_sep_none. exact Hend.
Qed.

(** X5: for a name [item] as [os.listdir] gives them (not empty, without
    [/]) and a remote directory that is not empty and does not end in [/],
    the path [remote/item] that [process_local_path] builds splits back into
    the two: [upload_file] derives [remote] as the parent folder, so the file
    is uploaded into the directory being mirrored, and [remote_path_exists]
    lists [remote] and looks for [item/]. *)
Theorem upload_item_path_splits_back (remote item : str) :
  remote <> [] ->
  Py.endswith_sep remote = false ->
  item <> [] ->
  forallb (fun c => negb (N.eqb SEP c)) item = true ->
  Py.dirname (remote ++ SEP :: item) = remote /\
  Py.basename (remote ++ SEP :: item) = item /\
  UploadFolder.parent_path (remote ++ SEP :: item) = remote /\
  UploadFolder.directory_name (remote ++ SEP :: item) = item /\
  forall W (env : Env W) local_file (s : st W),
    UploadFolder.upload_file env local_file (remote ++ SEP :: item) s
    = (UploadFolder.ensure_remote_path env remote ;;
       try_except
         (_ <- subprocess_run env
                 (UploadFolder.upload_command local_file remote) ;;
          print (Uploaded local_file (remote ++ SEP :: item)))
         (fun e => print (ErrorUploading local_file e))) s.
Proof.
  intros Hne Hend Hitem Hnosep.
  pose proof (dirname_of_item remote item Hne Hend Hnosep) as Hdir.
  assert (Hkeep : Py.rstrip_sep (remote ++ SEP :: item) = remote ++ SEP :: item).
  { apply rstrip_sep_none.
    destruct item as [|c r]; [congruence|].
    change (remote ++ SEP :: c :: r) with (remote ++ [SEP] ++ c :: r).
    rewrite app_assoc, endswith_sep_app.
    apply no_sep_no_trailing. exact Hnosep. }
  assert (Hbase : Py.basename (remote ++ SEP :: item) = item).
  { unfold Py.basename. rewrite (cut_last_sep_item remote item Hnosep).
    reflexivity. }
  split; [exact Hdir|]. split; [exact Hbase|].
  split; [unfold UploadFolder.parent_path; rewrite Hkeep; exact Hdir|].
  split; [unfold UploadFolder.directory_name; rewrite Hkeep; exact Hbase|].
  intros W env local_file s. unfold UploadFolder.upload_file.
  rewrite Hdir. reflexivity.
Qed.

Lemma upload_item_path_splits_back_witness :
  lit "/cloud/upload" <> [] /\
  Py.endswith_sep (lit "/cloud/upload") = false /\
  lit "f.txt" <> [] /\
  forallb (fun c => negb (N.eqb SEP c)) (lit "f.txt") = true /\
  Py.dirname (lit "/cloud/upload" ++ SEP :: lit "f.txt") = lit "/cloud/upload".
Proof.
  split; [discriminate|]. split; [reflexivity|]. split; [discriminate|].
  split; [reflexivity|].
  apply (upload_item_path_splits_back (lit "/cloud/upload") (lit "f.txt"));
    [discriminate | reflexivity | discriminate | reflexivity].
Defined.

(** ** Entries the download traversal does not expect *)

(** X6: an entry of the listing that starts with [/] and holds more than
    separators leaves the local root: [os.path.join] drops the local path
    before an absolute name, so a file entry is downloaded to the entry name
    itself, and a directory entry is made, and gone into, at the entry name
    without its trailing separators.  An entry made of separators only is
    left with the empty name: it stays at the local root,
    [os.path.join(local, '')], and the traversal calls itself on the remote
    path it is at, without its own trailing separators. *)
Theorem absolute_entry_leaves_local_root
    (W : Type) (env : Env W) (recurse : str -> str -> M W unit)
    (remote local item : str) :
  Py.startswith_sep (Py.strip item) = true ->
  let item_name := Py.strip item in
  (Py.endswith_sep item_name = false ->
   forall s,
     DownloadFolder.process_item env recurse remote local item s
     = DownloadFolder.download_file env
         (remote ++ SEP :: item_name) item_name s) /\
  (Py.endswith_sep item_name = true ->
   Py.rstrip_sep item_name <> [] ->
   forall s,
     DownloadFolder.process_item env recurse remote local item s
     = (os_makedirs env (Py.rstrip_sep item_name) ;;
        recurse (remote ++ SEP :: Py.rstrip_sep item_name)
                (Py.rstrip_sep item_name)) s) /\
  (Py.rstrip_sep item_name = [] ->
   Py.endswith_sep item_name = true /\
   forall s,
     DownloadFolder.process_item env recurse remote local item s
     = (os_makedirs env (Py.join local []) ;;
        recurse (Py.rstrip_sep remote) (Py.join local [])) s).
Proof.
  intros Habs item_name. fold item_name in Habs.
  assert (Hne : is_empty item_name = false)
    by (destruct item_name; [discriminate | reflexivity]).
  split; [|split].
  - intros Hfile s. unfold DownloadFolder.process_item. fold item_name.
    rewrite Hne. unfold DownloadFolder.process_entry. rewrite Hfile.
    unfold Py.join. rewrite Habs. reflexivity.
  - intros Hdir Hrest s. unfold DownloadFolder.process_item. fold item_name.
    rewrite Hne. unfold DownloadFolder.process_entry. rewrite Hdir.
    assert (Hstart : Py.startswith_sep (Py.rstrip_sep item_name) = true).
    { destruct (Py.rstrip_sep item_name) as [|c r] eqn:E; [congruence|].
      destruct (rstrip_by_head _ _ _ _ E) as [rest Hrest'].
      rewrite Hrest' in Habs. exact Habs. }
    rewrite rstrip_sep_joined.
    destruct (Py.rstrip_sep item_name) as [|c r] eqn:E; [congruence|].
    cbn [is_empty]. unfold Py.join. rewrite Hstart. reflexivity.
  - intros Hall.
    assert (Hdir : Py.endswith_sep item_name = true).
    { destruct (Py.endswith_sep item_name) eqn:E; [reflexivity|].
      rewrite (rstrip_sep_none item_name E) in Hall.
      rewrite Hall in Hne. discriminate. }
    split; [exact Hdir|].
    intros s. unfold DownloadFolder.process_item. fold item_name.
    rewrite Hne. unfold DownloadFolder.process_entry. rewrite Hdir.
    rewrite rstrip_sep_joined, Hall. reflexivity.
Qed.

Lemma absolute_entry_leaves_local_root_witness :
  let env := absolute_entry_env in
  let recurse := DownloadFolder.process_remote_path env 0 in
  (Py.startswith_sep (Py.strip (lit "/etc/cron.d/job")) = true /\
   Py.endswith_sep (Py.strip (lit "/etc/cron.d/job")) = false /\
   DownloadFolder.process_item env recurse
     (lit "/cloud/download") (lit "./download") (lit "/etc/cron.d/job") start
   = DownloadFolder.download_file env
       (lit "/cloud/download//etc/cron.d/job") (lit "/etc/cron.d/job") start)
  /\
  (Py.startswith_sep (Py.strip (lit "/etc/cron.d//")) = true /\
   Py.endswith_sep (Py.strip (lit "/etc/cron.d//")) = true /\
   Py.rstrip_sep (Py.strip (lit "/etc/cron.d//")) <> [] /\
   DownloadFolder.process_item env recurse
     (lit "/cloud/download") (lit "./download") (lit "/etc/cron.d//") start
   = (os_makedirs env (lit "/etc/cron.d") ;;
      recurse (lit "/cloud/download//etc/cron.d") (lit "/etc/cron.d")) start)
  /\
  (Py.startswith_sep (Py.strip (lit "//")) = true /\
   Py.rstrip_sep (Py.strip (lit "//")) = [] /\
   DownloadFolder.process_item env recurse
     (lit "/cloud/download") (lit "./download") (lit "//") start
   = (os_makedirs env (lit "./download/") ;;
      recurse (lit "/cloud/download") (lit "./download/")) start).
Proof.
  cbv zeta. split; [|split].
  - split; [reflexivity|]. split; [reflexivity|].
    apply (absolute_entry_leaves_local_root unit absolute_entry_env
             (DownloadFolder.process_remote_path absolute_entry_env 0)
             (lit "/cloud/download") (lit "./download")
             (lit "/etc/cron.d/job")); reflexivity.
  - split; [reflexivity|]. split; [reflexivity|].
    split; [discriminate|].
    apply (proj1 (proj2
             (absolute_entry_leaves_local_root unit absolute_entry_env
                (DownloadFolder.process_remote_path absolute_entry_env 0)
                (lit "/cloud/download") (lit "./download")
                (lit "/etc/cron.d//") eq_refl)));
      [reflexivity | discriminate].
  - split; [reflexivity|]. split; [reflexivity|].
    apply (proj2 (proj2
             (absolute_entry_leaves_local_root unit absolute_entry_env
                (DownloadFolder.process_remote_path absolute_entry_env 0)
                (lit "/cloud/download") (lit "./download")
                (lit "//") eq_refl))).
    reflexivity.
Defined.

(** The whole script on such a listing: the file is fetched to
    [/etc/cron.d/job], not below [./download]. *)
Example absolute_entry_download :
  exists s',
    DownloadFolder.main absolute_entry_env 1 start = Ok tt s' /\
    steps_of (trace s') =
      [LocalDir (lit "./download");
       Command (DownloadFolder.lsp_command (lit "/cloud/download"));
       Command (DownloadFolder.download_command
                  (lit "/cloud/download//etc/cron.d/job")
                  (lit "/etc/cron.d/job"))].
Proof. eexists. split; vm_compute; reflexivity. Qed.

(** The entry [//] of a listing of [/cloud/download]: the local directory
    made is [./download/], and the traversal goes into [/cloud/download]
    again. *)
Example separators_only_entry_stays_at_root :
  DownloadFolder.process_item empty_listing_env
    (fun remote local => emit (Makedirs (remote ++ SPACE :: local)))
    (lit "/cloud/download") (lit "./download") (lit "//") start
  = Ok tt
      {| world := tt;
         trace := [Makedirs (lit "./download/");
                   Makedirs (lit "/cloud/download ./download/")] |}.
Proof. vm_compute. reflexivity. Qed.

(** X7: when the listing of a remote path starts with the line [/] (a
    directory entry with an empty name), the traversal strips the entry back
    to the same remote path and calls itself on it: whatever depth of calls
    is allowed, it is used up (Python ends such a run with its recursion
    limit). *)
Theorem slash_entry_recursion_never_ends
    (W : Type) (env : Env W) (remote : str) :
  (forall w, exists rest,
     fst (sub_run env (DownloadFolder.lsp_command remote) w)
     = Exited 0%Z (Some (SEP :: LF :: rest))) ->
  (forall p w, fs_makedirs env p w <> None) ->
  Py.endswith_sep remote = false ->
  forall fuel local (s : st W),
    DownloadFolder.process_remote_path env fuel remote local s = OutOfFuel.
Proof.
  intros Hlist Hmk Hend fuel.
  induction fuel as [|fuel IH]; intros local s; [reflexivity|].
  destruct (Hlist (world s)) as [rest Hout].
  destruct (sub_run env (DownloadFolder.lsp_command remote) (world s))
    as [a w1] eqn:E.
  cbn [fst] in Hout. subst a.
  cbn [DownloadFolder.process_remote_path]. unfold bind at 1.
  rewrite (get_remote_files_ok env remote s _ w1 E).
  change (SEP :: LF :: rest) with ([SEP] ++ LF :: rest).
  rewrite splitlines_boundary; [|reflexivity|reflexivity|discriminate].
  cbn [for_each]. unfold bind at 1.
  unfold DownloadFolder.process_item.
  change (Py.strip [SEP]) with [SEP]. cbn [is_empty].
  unfold DownloadFolder.process_entry.
  change (Py.endswith_sep [SEP]) with true. cbv iota.
  change (Py.rstrip_sep [SEP]) with (@nil char).
  unfold bind at 1.
  destruct (os_makedirs_ok env Hmk (Py.join local [])
              {| world := w1;
                 trace := trace s ++
                   [Run (DownloadFolder.lsp_command remote) 0%Z] |})
    as [w2 Hmade].
  rewrite Hmade.
  assert (Hsame : Py.rstrip_sep (remote ++ [SEP; SEP]) = remote).
  { unfold Py.rstrip_sep. rewrite rstrip_by_app_all by reflexivity.
    apply rstrip_sep_none. exact Hend. }
  rewrite Hsame, IH. reflexivity.
Qed.

Lemma slash_entry_recursion_never_ends_witness :
  (forall w, exists rest,
     fst (sub_run slash_entry_env
            (DownloadFolder.lsp_command (lit "/cloud/download")) w)
     = Exited 0%Z (Some (SEP :: LF :: rest))) /\
  (forall p w, fs_makedirs slash_entry_env p w <> None) /\
  Py.endswith_sep (lit "/cloud/download") = false /\
  DownloadFolder.process_remote_path slash_entry_env 1000
    (lit "/cloud/download") (lit "./download") start = OutOfFuel.
Proof.
  assert (H1 : forall w, exists rest,
            fst (sub_run slash_entry_env
                   (DownloadFolder.lsp_command (lit "/cloud/download")) w)
            = Exited 0%Z (Some (SEP :: LF :: rest)))
    by (intros w; exists []; reflexivity).
  assert (H2 : forall p w, fs_makedirs slash_entry_env p w <> None)
    by (intros p w; discriminate).
  split; [exact H1|]. split; [exact H2|]. split; [reflexivity|].
  apply (slash_entry_recursion_never_ends unit slash_entry_env
           (lit "/cloud/download") H1 H2 eq_refl).
Defined.

(** ** Uploading a local tree *)





Section UploadTree.
Context {W : Type} (env : Env W).


End UploadTree.



(** ** The command texts and the shell *)

Lemma lex_plain_safe_then (r tail : str) :
  forall cur,
    forallb Py.is_safe r = true ->
    Sh.lex Sh.Plain (Some cur) (r ++ SPACE :: tail)
    = Sh.close_word (Some (cur ++ r)) (Sh.lex Sh.Plain None tail).
Proof.
  induction r as [|c r IH]; intros cur Hsafe.
  - cbn [app]. rewrite app_nil_r. reflexivity.
  - cbn [forallb] in Hsafe. apply andb_true_iff in Hsafe as [Hc Hr].
    rewrite <- app_comm_cons, (lex_plain_safe _ c _ Hc).
    unfold Sh.push. cbn [Sh.word_of].
    rewrite (IH _ Hr), <- app_assoc. reflexivity.
Qed.

(** An escaped path followed by a space is read as that path, and the
    reading goes on after the space. *)
Lemma lex_quote_then (s tail : str) :
  Sh.lex Sh.Plain None (Py.quote s ++ SPACE :: tail)
  = Sh.close_word (Some s) (Sh.lex Sh.Plain None tail).
Proof.
  unfold Py.quote. destruct s as [|c s]; [reflexivity|]. cbn [is_empty].
  destruct (forallb Py.is_safe (c :: s)) eqn:Hsafe.
  - cbn [forallb] in Hsafe. apply andb_true_iff in Hsafe as [Hc Hs].
    rewrite <- app_comm_cons, (lex_plain_safe None c _ Hc).
    unfold Sh.push. cbn [Sh.word_of app].
    apply (lex_plain_safe_then s tail [c] Hs).
  - change (Sh.lex Sh.InSingle (Some [])
              ((Py.replace_squote [SQUOTE; DQUOTE; SQUOTE; DQUOTE; SQUOTE]
                  (c :: s) ++ [SQUOTE]) ++ SPACE :: tail)
            = Sh.close_word (Some (c :: s)) (Sh.lex Sh.Plain None tail)).
    rewrite <- app_assoc. cbn [app]. rewrite lex_single_quoted. reflexivity.
Qed.

Lemma literal_text_reaches_client (inner : str) :
  forallb dq_literal inner = true ->
  Sh.words (reccli inner)
  = Sh.Words [lit "reccli-ts"; lit "run"; lit "-c"; inner].
Proof.
  intros Hlit. unfold Sh.words, reccli.
  change (Sh.close_word (Some (lit "reccli-ts"))
            (Sh.close_word (Some (lit "run"))
               (Sh.close_word (Some (lit "-c"))
                  (Sh.lex Sh.InDouble (Some []) (inner ++ [DQUOTE]))))
          = Sh.Words [lit "reccli-ts"; lit "run"; lit "-c"; inner]).
  rewrite lex_double_literal by exact Hlit. reflexivity.
Qed.

(** X2: the text each script writes for the client (the part between the
    double quotes of [reccli-ts run -c]) is, read with the quoting rules of a
    shell, the verb followed by exactly the paths it was built from, each as
    one word: [lsp], [mkdir] and [rm] with one path, [download] and [upload]
    with two, whatever characters the paths hold. *)
Theorem client_command_text_reads_back (a b : str) :
  (DownloadFolder.lsp_command a = reccli (lit "lsp " ++ Py.quote a) /\
   Sh.words (lit "lsp " ++ Py.quote a) = Sh.Words [lit "lsp"; a]) /\
  (DownloadFolder.download_command a b
   = reccli (lit "download " ++ Py.quote a ++ SPACE :: Py.quote b) /\
   Sh.words (lit "download " ++ Py.quote a ++ SPACE :: Py.quote b)
   = Sh.Words [lit "download"; a; b]) /\
  (UploadFolder.lsp_command a = reccli (lit "lsp " ++ Py.quote a)) /\
  (UploadFolder.mkdir_command a = reccli (lit "mkdir " ++ Py.quote a) /\
   Sh.words (lit "mkdir " ++ Py.quote a) = Sh.Words [lit "mkdir"; a]) /\
  (UploadFolder.upload_command a b
   = reccli (lit "upload " ++ Py.quote a ++ SPACE :: Py.quote b) /\
   Sh.words (lit "upload " ++ Py.quote a ++ SPACE :: Py.quote b)
   = Sh.Words [lit "upload"; a; b]) /\
  (ClearRecycle.rm_command a = reccli (lit "rm " ++ Py.quote a) /\
   Sh.words (lit "rm " ++ Py.quote a) = Sh.Words [lit "rm"; a]).
Proof.
  pose proof (quote_roundtrip a) as Ha. unfold Sh.words in Ha.
  pose proof (quote_roundtrip b) as Hb. unfold Sh.words in Hb.
  assert (Hone : forall verb,
            Sh.close_word (Some verb) (Sh.lex Sh.Plain None (Py.quote a))
            = Sh.Words [verb; a])
    by (intros verb; rewrite Ha; reflexivity).
  assert (Htwo : forall verb,
            Sh.close_word (Some verb)
              (Sh.lex Sh.Plain None (Py.quote a ++ SPACE :: Py.quote b))
            = Sh.Words [verb; a; b])
    by (intros verb; rewrite lex_quote_then, Hb; reflexivity).
  repeat split.
  - exact (Hone (lit "lsp")).
  - exact (Htwo (lit "download")).
  - exact (Hone (lit "mkdir")).
  - exact (Htwo (lit "upload")).
  - exact (Hone (lit "rm")).
Qed.

Lemma dq_literal_app (x y : str) :
  forallb dq_literal (x ++ y) = forallb dq_literal x && forallb dq_literal y.
Proof. apply forallb_app. Qed.

(** X12: for paths that hold no single or double quote, dollar, backtick or
    backslash, the shell passes each script's command line on as
    [reccli-ts], [run], [-c] and the client's command text as one argument,
    unchanged. *)
Theorem plain_paths_reach_client (a b : str) :
  plain_path a = true ->
  plain_path b = true ->
  Sh.words (DownloadFolder.lsp_command a)
  = Sh.Words [lit "reccli-ts"; lit "run"; lit "-c";
              lit "lsp " ++ Py.quote a] /\
  Sh.words (DownloadFolder.download_command a b)
  = Sh.Words [lit "reccli-ts"; lit "run"; lit "-c";
              lit "download " ++ Py.quote a ++ SPACE :: Py.quote b] /\
  Sh.words (UploadFolder.mkdir_command a)
  = Sh.Words [lit "reccli-ts"; lit "run"; lit "-c";
              lit "mkdir " ++ Py.quote a] /\
  Sh.words (UploadFolder.upload_command a b)
  = Sh.Words [lit "reccli-ts"; lit "run"; lit "-c";
              lit "upload " ++ Py.quote a ++ SPACE :: Py.quote b] /\
  Sh.words (ClearRecycle.rm_command a)
  = Sh.Words [lit "reccli-ts"; lit "run"; lit "-c";
              lit "rm " ++ Py.quote a].
Proof.
  intros Ha Hb.
  pose proof (plain_path_quote a Ha) as Hqa.
  pose proof (plain_path_quote b Hb) as Hqb.
  assert (Hpair : forallb dq_literal (Py.quote a ++ SPACE :: Py.quote b) = true).
  { rewrite dq_literal_app, Hqa. cbn [forallb andb].
    rewrite Hqb. reflexivity. }
  repeat split.
  - apply literal_text_reaches_client. rewrite dq_literal_app, Hqa. reflexivity.
  - apply literal_text_reaches_client.
    rewrite dq_literal_app, Hpair. reflexivity.
  - apply literal_text_reaches_client. rewrite dq_literal_app, Hqa. reflexivity.
  - apply literal_text_reaches_client.
    rewrite dq_literal_app, Hpair. reflexivity.
  - apply literal_text_reaches_client. rewrite dq_literal_app, Hqa. reflexivity.
Qed.

Lemma plain_paths_reach_client_witness :
  plain_path (lit "/cloud/download/my file.txt") = true /\
  plain_path (lit "./download/my file.txt") = true /\
  Sh.words (DownloadFolder.download_command
              (lit "/cloud/download/my file.txt")
              (lit "./download/my file.txt"))
  = Sh.Words [lit "reccli-ts"; lit "run"; lit "-c";
              lit "download '/cloud/download/my file.txt' './download/my file.txt'"].
Proof.
  split; [reflexivity|]. split; [reflexivity|].
  apply (plain_paths_reach_client (lit "/cloud/download/my file.txt")
           (lit "./download/my file.txt")); reflexivity.
Defined.

(** ** Failures of the local file system in the download script *)

(** X13: [os.makedirs] is called outside any [try]: when the local root
    cannot be made the script ends with the [OSError] before any command is
    issued, and when the local directory of a directory entry cannot be made
    the [OSError] ends the loop at that entry, the entries after it being
    left unprocessed. *)
Theorem local_directory_failure_aborts_download
    (W : Type) (env : Env W) (s : st W) :
  (fs_makedirs env DownloadFolder.local_path (world s) = None ->
   forall fuel,
     DownloadFolder.main env fuel s
     = Raised (OSError DownloadFolder.local_path) s) /\
  (forall recurse remote local item rest,
     Py.endswith_sep (Py.strip item) = true ->
     fs_makedirs env
       (Py.join local (Py.rstrip_sep (Py.strip item))) (world s) = None ->
     for_each (item :: rest)
       (DownloadFolder.process_item env recurse remote local) s
     = Raised (OSError (Py.join local (Py.rstrip_sep (Py.strip item)))) s).
Proof.
  split.
  - intros Hfail fuel. unfold DownloadFolder.main, bind, os_makedirs.
    rewrite Hfail. reflexivity.
  - intros recurse remote local item rest Hdir Hfail.
    cbn [for_each]. unfold bind at 1. unfold DownloadFolder.process_item.
    destruct (Py.strip item) as [|c r] eqn:E; [discriminate|].
    cbn [is_empty]. unfold DownloadFolder.process_entry. rewrite Hdir.
    unfold bind, os_makedirs. rewrite Hfail. reflexivity.
Qed.

Lemma local_directory_failure_aborts_download_witness :
  fs_makedirs no_local_directory_env DownloadFolder.local_path (world start)
  = None /\
  DownloadFolder.main no_local_directory_env 5 start
  = Raised (OSError (lit "./download")) start /\
  Py.endswith_sep (Py.strip (lit "sub/")) = true /\
  for_each [lit "sub/"; lit "a.txt"]
    (DownloadFolder.process_item no_local_directory_env
       (DownloadFolder.process_remote_path no_local_directory_env 4)
       (lit "/cloud/download") (lit "./download")) start
  = Raised (OSError (lit "./download/sub")) start.
Proof.
  destruct (local_directory_failure_aborts_download unit
              no_local_directory_env start) as [Hroot Hentry].
  split; [reflexivity|]. split; [apply Hroot; reflexivity|].
  split; [reflexivity|].
  apply (Hentry (DownloadFolder.process_remote_path no_local_directory_env 4)
           (lit "/cloud/download") (lit "./download") (lit "sub/")
           [lit "a.txt"]); reflexivity.
Defined.
